(** * codeassist: the [code-agent] workflow

    A shallow embedding of the Inngest function [codeAgentFunction]
    (the workflow that provisions a sandbox, loads the previous messages,
    runs the agent network, and persists the result) together with the
    properties its specification states about it.

    The hosted services the workflow talks to (the E2B sandbox, the LLM
    provider) are an abstract state machine [Services]; the Prisma message
    table and the shared agent state are explicit fields of the [World]
    that every step threads through. JavaScript exceptions are the
    [Thrown] outcome of a step. *)

From Stdlib Require Import String Ascii List ZArith Lia Bool.
From stdpp Require Import base option list gmap strings sorting.

Local Open Scope string_scope.

(* ================================================================== *)
(** * JavaScript strings                                               *)
(* ================================================================== *)

Module Js.

(** Truthiness of a string: only the empty string is falsy. *)
Definition truthy (s : string) : bool :=
  match s with
  | EmptyString => false
  | String _ _ => true
  end.

(** [hay.includes(needle)]: [needle] occurs in [hay] at some offset. *)
Fixpoint includes (hay needle : string) : bool :=
  String.prefix needle hay
  || match hay with
     | EmptyString => false
     | String _ rest => includes rest needle
     end.

(** The character written [\\] inside a template literal. *)
Definition backslash : ascii := ascii_of_nat 92.

(** [s.startsWith(p)]. *)
Definition startsWith (s p : string) : bool := String.prefix p s.

(** [o[k] = v] for a plain object [o], seen as the map of its own
    properties, and a string [v]. Every key names an own property but
    [__proto__]: that one is the accessor of [Object.prototype], whose
    setter ignores a value that is neither an object nor [null], so the
    assignment leaves [o] as it is. *)
Definition assign (o : gmap string string) (k v : string)
  : gmap string string :=
  if String.eqb k "__proto__" then o else <[k := v]> o.

End Js.

(* ================================================================== *)
(** * Data model                                                       *)
(* ================================================================== *)

(** [interface AgentState { summary: string; files: Record<string, string> }].
    The record of files is a plain object; it is modelled by the map of
    its own properties, which is what [Object.keys] and the stored JSON
    see. *)
Record AgentState := mkAgentState {
  summary : string;
  files : gmap string string;
}.

(** Prisma enums of the message table. *)
Inductive MessageRole := USER | ASSISTANT.
Inductive MessageType := RESULT | ERROR.

#[global] Instance MessageRole_eq_dec : EqDecision MessageRole.
Proof. solve_decision. Defined.
#[global] Instance MessageType_eq_dec : EqDecision MessageType.
Proof. solve_decision. Defined.

(** The fragment nested under an assistant message. *)
Record Fragment := mkFragment {
  sandboxUrl : string;
  frag_title : string;
  frag_files : gmap string string;
}.

(** A row of the message table. *)
Record MessageRow := mkMessageRow {
  projectId : string;
  content : string;
  role : MessageRole;
  type : MessageType;
  createdAt : Z;
  fragment : option Fragment;
}.

(** agent-kit's text [Message]: [{ type: "text", role, content }]. *)
Inductive Role := assistant | user.

Record Message := mkMessage {
  msg_type : string;
  msg_role : Role;
  msg_content : string;
}.

(** [createState(data, { messages })]. *)
Record State := mkState {
  data : AgentState;
  messages : list Message;
}.

(** The event payload [{ projectId, value }]. *)
Record Event := mkEvent {
  ev_projectId : string;
  ev_value : string;
}.

(** The workflow's return value [{ url, title, files, summary }]. *)
Record ReturnValue := mkReturnValue {
  rv_url : string;
  rv_title : string;
  rv_files : gmap string string;
  rv_summary : string;
}.

(** Arguments of the tools, as the zod schemas declare them. *)
Record FileEntry := mkFileEntry {
  path : string;
  file_content : string;
}.

Inductive ToolCall :=
| CallTerminal (command : string)
| CallCreateOrUpdateFiles (entries : list FileEntry)
| CallReadFiles (paths : list string).

(** What one inference of the model yields: the tool calls it requests and
    the text of its last assistant message, if any (the value of
    [lastAssistantTextMessageContent(result)]). *)
Record AgentResult := mkAgentResult {
  last_text : option string;
  tool_calls : list ToolCall;
}.

(** Modelled from the spec: the output of a single-shot agent, which
    [parseAgentOutput] (in [./utils], not part of the sources at hand)
    takes. The spec names two shapes: plain text, and a tagged/structured
    envelope of a text. *)
Inductive AgentOutput :=
| PlainText (text : string)
| Envelope (tag : string) (text : string).

(** The optional [step] tools handed to a tool handler. *)
Inductive StepTools := InngestStep.

(* ================================================================== *)
(** * Outcomes of a step                                               *)
(* ================================================================== *)

(** A thrown JavaScript value; [`${e}`] renders it as [exn_text e]. *)
Record exn := Exn { exn_text : string }.

(** How a call to a hosted service settles: its promise resolves to a
    value or rejects with a thrown value. *)
Inductive settled (A : Type) :=
| Resolved (a : A)
| Rejected (e : exn).
Arguments Resolved {A} a.
Arguments Rejected {A} e.

(** How a computation ends: it returns, it throws, or the fuel given to an
    unbounded loop of the model ran out before the loop was done. *)
Inductive outcome (A : Type) :=
| Returned (a : A)
| Thrown (e : exn)
| OutOfFuel.
Arguments Returned {A} a.
Arguments Thrown {A} e.
Arguments OutOfFuel {A}.

(* ================================================================== *)
(** * External services                                                *)
(* ================================================================== *)

(** The hosted services are a state machine over an abstract state [Ext]:
    every call may change that state and either returns or throws.

    [getSandbox] lives in [./utils] and [SANDBOX_TIMEOUT] in [./types];
    the workflow only relies on [getSandbox] resolving to a sandbox handle
    or throwing, so it is a field here. *)
Record Services (Ext : Type) := mkServices {
  (** [Sandbox.create(template)] then [sandbox.setTimeout(SANDBOX_TIMEOUT)];
      yields [sandbox.sandboxId]. *)
  sandbox_create : string → Ext → settled string * Ext;
  (** [getSandbox(sandboxId)]. *)
  getSandbox : string → Ext → settled unit * Ext;
  (** [(await sandbox.commands.run(command)).stdout]. *)
  commands_run : string → Ext → settled string * Ext;
  (** [sandbox.files.write(path, content)]. *)
  files_write : string → string → Ext → settled unit * Ext;
  (** [sandbox.files.read(path)]. *)
  files_read : string → Ext → settled string * Ext;
  (** [sandbox.getHost(port)]. *)
  getHost : nat → Ext → string;
  (** One inference of the code agent's model on the user's prompt and the
      conversation so far. *)
  infer : string → list Message → Ext → settled AgentResult * Ext;
  (** [fragmentTitleGenerator.run(summary)] and
      [responseGenerator.run(summary)]: the [output] of each. *)
  title_generator : string → Ext → settled AgentOutput * Ext;
  response_generator : string → Ext → settled AgentOutput * Ext;
  (** The clock that stamps [createdAt] on a new row. *)
  now : Ext → Z;
}.
Arguments sandbox_create {Ext} _ _ _.
Arguments getSandbox {Ext} _ _ _.
Arguments commands_run {Ext} _ _ _.
Arguments files_write {Ext} _ _ _ _.
Arguments files_read {Ext} _ _ _.
Arguments getHost {Ext} _ _ _.
Arguments infer {Ext} _ _ _ _.
Arguments title_generator {Ext} _ _ _.
Arguments response_generator {Ext} _ _ _.
Arguments now {Ext} _ _.

(** Everything a step can read or change: the shared agent state of the
    run, the hosted services, and the message table. *)
Record World (Ext : Type) := mkWorld {
  state : State;
  ext : Ext;
  db : list MessageRow;
}.
Arguments mkWorld {Ext} _ _ _.
Arguments state {Ext} _.
Arguments ext {Ext} _.
Arguments db {Ext} _.

(* ================================================================== *)
(** * The step monad                                                   *)
(* ================================================================== *)

Section Steps.
Context {Ext : Type}.

(** An asynchronous computation: it transforms the world and returns or
    throws. Changes made before a throw stay made. *)
Definition M (A : Type) : Type := World Ext → outcome A * World Ext.

Definition ret {A} (a : A) : M A := λ w, (Returned a, w).

Definition throw {A} (e : exn) : M A := λ w, (Thrown e, w).

Definition out_of_fuel {A} : M A := λ w, (OutOfFuel, w).

Definition bind {A B} (m : M A) (k : A → M B) : M B :=
  λ w, match m w with
       | (Returned a, w') => k a w'
       | (Thrown e, w') => (Thrown e, w')
       | (OutOfFuel, w') => (OutOfFuel, w')
       end.

(** [try { body } catch (e) { handler }]. *)
Definition try_catch {A} (body : M A) (handler : exn → M A) : M A :=
  λ w, match body w with
       | (Returned a, w') => (Returned a, w')
       | (Thrown e, w') => handler e w'
       | (OutOfFuel, w') => (OutOfFuel, w')
       end.

(** A call to a hosted service. *)
Definition call {A} (f : Ext → settled A * Ext) : M A :=
  λ w, match f (ext w) with
       | (Resolved a, x) => (Returned a, mkWorld (state w) x (db w))
       | (Rejected e, x) => (Thrown e, mkWorld (state w) x (db w))
       end.

Definition get_ext : M Ext := λ w, (Returned (ext w), w).

Definition get_state : M State := λ w, (Returned (state w), w).

Definition put_state (s : State) : M unit :=
  λ w, (Returned tt, mkWorld s (ext w) (db w)).

Definition get_db : M (list MessageRow) := λ w, (Returned (db w), w).

End Steps.

Declare Scope step_scope.
Delimit Scope step_scope with step.
Notation "x <- m ;; k" := (bind m (λ x, k))
  (at level 100, m at next level, right associativity) : step_scope.
Notation "m ;;; k" := (bind m (λ _, k))
  (at level 100, right associativity) : step_scope.
Local Open Scope step_scope.

Section Control.
Context {Ext : Type}.

(** [for (const x of xs) { await body(x) }]. *)
Fixpoint for_of {A} (xs : list A) (body : A → M (Ext:=Ext) unit) : M unit :=
  match xs with
  | [] => ret tt
  | x :: rest => body x ;;; for_of rest body
  end.

(** [Promise.all(xs.map(f))]: the results in order, or the first throw. *)
Fixpoint promise_all_map {A B} (xs : list A) (f : A → M (Ext:=Ext) B)
  : M (list B) :=
  match xs with
  | [] => ret []
  | x :: rest =>
      y <- f x ;; ys <- promise_all_map rest f ;; ret (y :: ys)
  end.

(** [step.run(id, body)]: the engine runs [body] and records its result
    under [id]; within one execution that is [body] itself. *)
Definition step_run {A} (id : string) (body : M (Ext:=Ext) A) : M A := body.

(** [step?.run(id, body)]: [undefined] when no step tools were given. *)
Definition opt_step_run {A} (step : option StepTools) (id : string)
  (body : M (Ext:=Ext) A) : M (option A) :=
  match step with
  | Some InngestStep => a <- step_run id body ;; ret (Some a)
  | None => ret None
  end.

(** [m] never runs out of fuel. *)
Definition fuel_free {A} (m : M (Ext:=Ext) A) : Prop :=
  ∀ w, (m w).1 ≠ OutOfFuel.

(** The message table is the same in both worlds. *)
Definition same_db (w w' : World Ext) : Prop := db w' = db w.

(** [m] takes every world to one that [R] relates it to, however it ends. *)
Definition keeps (R : World Ext → World Ext → Prop) {A}
  (m : M (Ext:=Ext) A) : Prop :=
  ∀ w, R w (m w).2.

End Control.

(* ================================================================== *)
(** * Helpers from [./utils]                                           *)
(* ================================================================== *)

(** Modelled from the spec: [parseAgentOutput] is defined in [./utils],
    which is not among the sources. The spec asks that it return the
    literal text of a plain-text output and of a tagged/structured
    envelope alike. *)
Definition parseAgentOutput (output : AgentOutput) : string :=
  match output with
  | PlainText text => text
  | Envelope _ text => text
  end.

(* ================================================================== *)
(** * The message table (Prisma)                                       *)
(* ================================================================== *)

(** Newest first: the order of [orderBy: { createdAt: "desc" }]. *)
Definition newer_first (a b : MessageRow) : Prop := (createdAt b ≤ createdAt a)%Z.

#[global] Instance newer_first_dec a b : Decision (newer_first a b).
Proof. unfold newer_first. apply _. Defined.

(** Oldest first: chronological order. *)
Definition older_first (a b : MessageRow) : Prop := (createdAt a ≤ createdAt b)%Z.

(** The rows of project [pid], newest first, cut after [take_n]. *)
Definition select_rows (pid : string) (take_n : nat) (rows : list MessageRow)
  : list MessageRow :=
  take take_n
    (merge_sort newer_first (filter (λ r, projectId r = pid) rows)).

Section Prisma.
Context {Ext : Type} (svc : Services Ext).

(** Modelled from the spec: [prisma.message.findMany] with
    [where: { projectId }], [orderBy: { createdAt: "desc" }] and [take];
    the ORM is a library outside the sources. It selects the rows of the
    project, orders them by creation time descending and keeps the first
    [take_n]. *)
Definition message_findMany (pid : string) (take_n : nat)
  : M (Ext:=Ext) (list MessageRow) :=
  rows <- get_db ;;
  ret (select_rows pid take_n rows).

(** [prisma.message.create({ data })]: appends the row, stamped with the
    current time, and resolves to it. *)
Definition message_create (pid text : string) (r : MessageRole)
  (t : MessageType) (frag : option Fragment) : M (Ext:=Ext) MessageRow :=
  λ w, let row := mkMessageRow pid text r t (now svc (ext w)) frag in
       (Returned row, mkWorld (state w) (ext w) (db w ++ [row])).

End Prisma.

(* ================================================================== *)
(** * The workflow                                                     *)
(* ================================================================== *)

Section Workflow.
Context {Ext : Type} (svc : Services Ext).

Local Abbreviation M := (M (Ext:=Ext)).

(** ** Previous messages *)

(** The object pushed for one row. *)
Definition format_message (message : MessageRow) : Message :=
  mkMessage "text"
    (match role message with ASSISTANT => assistant | USER => user end)
    (content message).

(** The body of the [for ... of] loop: [formattedMessages.push(...)]. *)
Definition push_formatted (formattedMessages : list Message)
  (message : MessageRow) : list Message :=
  formattedMessages ++ [format_message message].

Definition get_previous_messages (event : Event) : M (list Message) :=
  step_run "get-previous-messages"
    (messages <- message_findMany (ev_projectId event) 10 ;;
     let formattedMessages := fold_left push_formatted messages [] in
     ret (reverse formattedMessages)).

(** ** Shared agent state: [network.state.data] *)

Definition get_data : M AgentState := s <- get_state ;; ret (data s).

Definition set_summary (text : string) : M unit :=
  s <- get_state ;;
  put_state (mkState (mkAgentState text (files (data s))) (messages s)).

Definition set_files (fs : gmap string string) : M unit :=
  s <- get_state ;;
  put_state (mkState (mkAgentState (summary (data s)) fs) (messages s)).

(** [currentFiles[path] = content], where [currentFiles] is the very
    object held in [network.state.data.files]: the state was created with
    [files: {}], an object, so [network.state.data.files || {}] is that
    object and the assignment is visible in the shared state at once. *)
Definition assign_current_file (p c : string) : M unit :=
  s <- get_state ;;
  put_state
    (mkState
       (mkAgentState (summary (data s)) (Js.assign (files (data s)) p c))
       (messages s)).

(** ** Tools *)

(** The mapping after the assignments [o[path] = content] for the given
    entries, first to last. *)
Definition write_entries (o : gmap string string) (entries : list FileEntry)
  : gmap string string :=
  foldl (λ m file, Js.assign m (path file) (file_content file)) o entries.

Definition terminal_handler (sandboxId command : string)
  (step : option StepTools) : M (option string) :=
  opt_step_run step "terminal"
    (try_catch
       (call (getSandbox svc sandboxId) ;;;
        stdout <- call (commands_run svc command) ;;
        ret stdout)
       (λ e, ret ("Command failed: " ++ exn_text e))).

(** The body of the loop over the entries: write the file in the sandbox,
    then record it in [currentFiles]. *)
Definition write_one (file : FileEntry) : M unit :=
  call (files_write svc (path file) (file_content file)) ;;;
  assign_current_file (path file) (file_content file).

Definition createOrUpdateFiles_handler (sandboxId : string)
  (entries : list FileEntry) (step : option StepTools) : M unit :=
  updatedFiles <-
    opt_step_run step "createOrUpdateFiles"
      (call (getSandbox svc sandboxId) ;;;
       for_of entries write_one ;;;
       currentFiles <- get_data ;;
       ret (files currentFiles)) ;;
  match updatedFiles with
  | Some fs => set_files fs        (* typeof updatedFiles === "object" *)
  | None => ret tt                 (* undefined *)
  end.

Definition readFiles_handler (sandboxId : string) (paths : list string)
  (step : option StepTools) : M (option (list FileEntry)) :=
  opt_step_run step "readFiles"
    (call (getSandbox svc sandboxId) ;;;
     promise_all_map paths
       (λ file, c <- call (files_read svc file) ;; ret (mkFileEntry file c))).

Definition invoke_tool (sandboxId : string) (step : option StepTools)
  (tc : ToolCall) : M unit :=
  match tc with
  | CallTerminal command => terminal_handler sandboxId command step ;;; ret tt
  | CallCreateOrUpdateFiles entries =>
      createOrUpdateFiles_handler sandboxId entries step
  | CallReadFiles paths => readFiles_handler sandboxId paths step ;;; ret tt
  end.

(** ** The code agent *)

(** [lifecycle.onResponse]: a response whose last assistant text carries
    the completion tag becomes the summary. *)
Definition onResponse (result : AgentResult) : M AgentResult :=
  match last_text result with
  | Some text =>
      if Js.includes text "<task_summary>"
      then set_summary text ;;; ret result
      else ret result
  | None => ret result              (* text?.includes(...) is undefined *)
  end.

(** Modelled from the spec: one turn of the single LLM-backed agent, which
    agent-kit runs (a library outside the sources). The model is asked
    once, its response goes through [onResponse], and the tool calls it
    requested are served in order by the handlers above. *)
Definition codeAgent_run (sandboxId input : string)
  (step : option StepTools) : M unit :=
  s <- get_state ;;
  result <- call (infer svc input (messages s)) ;;
  result <- onResponse result ;;
  for_of (tool_calls result) (invoke_tool sandboxId step).

(** ** The network *)

(** The agents of the network: [agents: [codeAgent]]. *)
Inductive Agent := codeAgent.

(** [router: async ({ network }) => { if (network.state.data.summary)
    return; return codeAgent; }]. *)
Definition router : M (option Agent) :=
  d <- get_data ;;
  if Js.truthy (summary d) then ret None else ret (Some codeAgent).

Definition agent_run (a : Agent) (sandboxId input : string)
  (step : option StepTools) : M unit :=
  match a with
  | codeAgent => codeAgent_run sandboxId input step
  end.

(** Modelled from the spec: the router loop of [network.run], which
    agent-kit owns (a library outside the sources). While an agent is
    scheduled and the iteration cap is not reached ([maxIter = 0] meaning
    no cap), the scheduled agent takes a turn, the counter goes up by one,
    and the router is asked once for the next agent. The loop yields the
    number of turns taken. [fuel] bounds the turns the model will follow. *)
Fixpoint network_loop (maxIter : nat) (sandboxId input : string)
  (step : option StepTools) (fuel : nat) (stack : list Agent)
  (counter : nat) : M nat :=
  match stack with
  | [] => ret counter
  | a :: stack' =>
      if (maxIter =? 0)%nat || (counter <? maxIter)%nat then
        match fuel with
        | 0 => out_of_fuel
        | S fuel' =>
            agent_run a sandboxId input step ;;;
            next <- router ;;
            network_loop maxIter sandboxId input step fuel'
              (stack' ++ option_list next) (S counter)
        end
      else ret counter
  end.

(** Modelled from the spec: [network.run(input, { state })]. The router
    picks the first agent; with none picked the run is over at once. *)
Definition network_run (maxIter : nat) (sandboxId input : string)
  (step : option StepTools) (fuel : nat) : M nat :=
  next <- router ;;
  match next with
  | None => ret 0
  | Some a =>
      network_loop maxIter sandboxId input step fuel [a] 0
  end.

(** [maxIter: 15]. *)
Definition maxIter : nat := 15.

(** ** Saving the result *)

(** [Object.keys(o)]. *)
Definition Object_keys (o : gmap string string) : list string :=
  (map_to_list o).*1.

(** [!summary || Object.keys(files || {}).length === 0]; [files] is an
    object by its declared type, so [files || {}] is [files]. *)
Definition isError (d : AgentState) : bool :=
  negb (Js.truthy (summary d)) || (length (Object_keys (files d)) =? 0)%nat.

(** The template literal [`https:\\${host}`]: the six characters
    [https:], one backslash, then the host. *)
Definition sandbox_url_of (host : string) : string :=
  "https:" ++ String Js.backslash host.

Definition get_sandbox_url (sandboxId : string) : M string :=
  step_run "get-sandbox-url"
    (call (getSandbox svc sandboxId) ;;;
     x <- get_ext ;;
     ret (sandbox_url_of (getHost svc 3000 x))).

Definition error_content : string := "Something went wrong. Please try again.".

Definition save_result (event : Event) (is_error : bool) (d : AgentState)
  (url : string) (fragmentTitleOutput responseOutput : AgentOutput)
  : M MessageRow :=
  step_run "save-result"
    (if is_error then
       message_create svc (ev_projectId event) error_content ASSISTANT ERROR
         None
     else
       message_create svc (ev_projectId event)
         (parseAgentOutput responseOutput) ASSISTANT RESULT
         (Some (mkFragment url (parseAgentOutput fragmentTitleOutput)
                  (files d)))).

(** ** [codeAgentFunction] *)

Definition createState (d : AgentState) (msgs : list Message) : State :=
  mkState d msgs.

Definition codeAgentFunction (fuel : nat) (event : Event) : M ReturnValue :=
  sandboxId <-
    step_run "get-sandbox-id"
      (call (sandbox_create svc "codeassist-nextjs-test-2")) ;;
  previousMessages <- get_previous_messages event ;;
  put_state (createState (mkAgentState "" ∅) previousMessages) ;;;
  network_run maxIter sandboxId (ev_value event) (Some InngestStep) fuel ;;;
  result <- get_data ;;
  fragmentTitleOutput <- call (title_generator svc (summary result)) ;;
  responseOutput <- call (response_generator svc (summary result)) ;;
  let is_error := isError result in
  url <- get_sandbox_url sandboxId ;;
  save_result event is_error result url fragmentTitleOutput responseOutput ;;;
  ret (mkReturnValue url "Fragment" (files result) (summary result)).

End Workflow.

(* ================================================================== *)
(** * A scripted instance of the services                              *)
(* ================================================================== *)

(** A sandbox with an in-memory file system and a model that replays a
    script: the reply to the [n]-th inference is [script n]. It gives the
    scenarios of the specification something to run on. *)
Module Scripted.

Record remote := mkRemote {
  turn : nat;
  fs : gmap string string;
}.

Definition host : string := "3000-sbx.e2b.app".

Definition services (script : nat → AgentResult)
  (shell : string → settled string) : Services remote :=
  {| sandbox_create := λ _ x, (Resolved "sbx", x);
     getSandbox := λ _ x, (Resolved tt, x);
     commands_run := λ command x, (shell command, x);
     files_write := λ p c x, (Resolved tt, mkRemote (turn x) (<[p := c]> (fs x)));
     files_read := λ p x,
       match fs x !! p with
       | Some c => (Resolved c, x)
       | None => (Rejected (Exn "NotFoundError"), x)
       end;
     getHost := λ _ _, host;
     infer := λ _ _ x, (Resolved (script (turn x)), mkRemote (S (turn x)) (fs x));
     title_generator := λ _ x, (Resolved (PlainText "Hello page"), x);
     response_generator := λ _ x, (Resolved (Envelope "text" "Created."), x);
     now := λ x, Z.of_nat (turn x) |}.

Definition shell_ok (command : string) : settled string :=
  Resolved ("ok: " ++ command).

Definition shell_fails (command : string) : settled string :=
  Rejected (Exn "CommandExitError: exit status 1").

Definition world0 : World remote :=
  mkWorld (mkState (mkAgentState "" ∅) []) (mkRemote 0 ∅) [].

Definition event0 : Event := mkEvent "p1" "create a hello world page".

Definition index_js : FileEntry := mkFileEntry "pages/index.js" "export default 1".

(** The agent writes one file and closes with a summary. *)
Definition script_done (n : nat) : AgentResult :=
  mkAgentResult (Some "<task_summary>Built the page.</task_summary>")
    [CallCreateOrUpdateFiles [index_js]].

(** The agent never closes and writes nothing. *)
Definition script_idle (n : nat) : AgentResult :=
  mkAgentResult (Some "thinking") [].

(** The agent writes one file on its first turn and never closes. *)
Definition script_unfinished (n : nat) : AgentResult :=
  match n with
  | 0 => mkAgentResult None [CallCreateOrUpdateFiles [index_js]]
  | S _ => mkAgentResult (Some "still working") []
  end.

Definition svc_done : Services remote := services script_done shell_ok.
Definition svc_idle : Services remote := services script_idle shell_ok.
Definition svc_unfinished : Services remote :=
  services script_unfinished shell_ok.
Definition svc_broken_shell : Services remote :=
  services script_idle shell_fails.

(** The world after the one turn of [script_done]. *)
Definition world_done : World remote :=
  (agent_run svc_done codeAgent "sbx" (ev_value event0) (Some InngestStep)
     world0).2.

(** The value a run returned. *)
Definition returned (r : outcome ReturnValue) : ReturnValue :=
  match r with
  | Returned rv => rv
  | _ => mkReturnValue "" "" ∅ ""
  end.

(** The run of the workflow on [script_done]: its value and final world. *)
Definition rv_done : ReturnValue :=
  returned (codeAgentFunction svc_done 15 event0 world0).1.
Definition after_done : World remote :=
  (codeAgentFunction svc_done 15 event0 world0).2.

(** The run of the workflow on [script_unfinished]. *)
Definition rv_unfinished : ReturnValue :=
  returned (codeAgentFunction svc_unfinished 15 event0 world0).1.
Definition after_unfinished : World remote :=
  (codeAgentFunction svc_unfinished 15 event0 world0).2.

(** A run in progress that already holds one file. *)
Definition world_keep : World remote :=
  mkWorld (mkState (mkAgentState "" {[ "README.md" := "keep" ]}) [])
    (mkRemote 1 ∅) [].

(** A write list that names one path twice. *)
Definition entries_twice : list FileEntry :=
  [mkFileEntry "a.ts" "first"; mkFileEntry "b.ts" "other";
   mkFileEntry "a.ts" "second"].

(** A table with eleven messages of project [p1], stored out of order, and
    one of another project. *)
Definition row (pid : string) (r : MessageRole) (t : Z) : MessageRow :=
  mkMessageRow pid "m" r RESULT t None.

Definition table12 : list MessageRow :=
  [row "p1" USER 5; row "p1" ASSISTANT 6; row "p2" USER 7; row "p1" USER 1;
   row "p1" ASSISTANT 2; row "p1" USER 3; row "p1" ASSISTANT 4;
   row "p1" USER 11; row "p1" ASSISTANT 10; row "p1" USER 9;
   row "p1" ASSISTANT 8; row "p1" USER 0].

Definition world_table : World remote :=
  mkWorld (mkState (mkAgentState "" ∅) []) (mkRemote 0 ∅) table12.

End Scripted.

(* ================================================================== *)
(** * The [hello-world] function                                       *)
(* ================================================================== *)

(** The earlier workflow of the same module: it provisions a sandbox, asks
    a one-shot agent for a snippet, and returns the agent's output with the
    sandbox URL. [create] is [Sandbox.create(template)] yielding the id,
    [agent] is [codeAgent.run(prompt)] yielding its [output]; both are
    hosted calls. *)
Section HelloWorld.
Context {Ext Output : Type} (svc : Services Ext).
Variable create : string → Ext → settled string * Ext.
Variable agent : string → Ext → settled Output * Ext.

(** The value [{ output, sandboxUrl }]. *)
Record HelloResult := mkHelloResult {
  hw_output : Output;
  hw_sandboxUrl : string;
}.

(** [`Write the following snippet: ${event.data.value}`]. *)
Definition hello_prompt (event : Event) : string :=
  "Write the following snippet: " ++ ev_value event.

(** The first version: the agent alone; it returns [{ output }]. *)
Definition helloWorld_agent_only (event : Event) : M (Ext:=Ext) Output :=
  output <- call (agent (hello_prompt event)) ;;
  ret output.

(** The version with a sandbox. *)
Definition helloWorld (event : Event) : M (Ext:=Ext) HelloResult :=
  sandboxId <-
    step_run "get-sandbox-id" (call (create "codeassist-nextjs-test-2")) ;;
  output <- call (agent (hello_prompt event)) ;;
  url <- get_sandbox_url svc sandboxId ;;
  ret (mkHelloResult output url).

End HelloWorld.
Arguments mkHelloResult {Output} _ _.
Arguments hw_output {Output} _.
Arguments hw_sandboxUrl {Output} _.

(* ================================================================== *)
(** * Relations between the worlds before and after a step             *)
(* ================================================================== *)

Section Relations.
Context {Ext : Type}.

(** The summary is what it was, or it is a text with the completion tag. *)
Definition summary_kept_or_tagged (w w' : World Ext) : Prop :=
  summary (data (state w')) = summary (data (state w)) ∨
  Js.includes (summary (data (state w'))) "<task_summary>" = true.

(** Every path of the file mapping is still a path of it. *)
Definition files_grow (w w' : World Ext) : Prop :=
  dom (files (data (state w))) ⊆ dom (files (data (state w'))).

(** The message table and the conversation handed to the model are the
    same. *)
Definition same_table_and_history (w w' : World Ext) : Prop :=
  db w' = db w ∧ messages (state w') = messages (state w).

(** The agent state, with the conversation, and the message table are the
    same. *)
Definition same_state_and_table (w w' : World Ext) : Prop :=
  state w' = state w ∧ db w' = db w.

(** The computation did not return. *)
Definition failed {A} (r : outcome A) : Prop :=
  match r with
  | Returned _ => False
  | Thrown _ | OutOfFuel => True
  end.

(** [m] changes the message table only when it returns. *)
Definition stores_only_on_return {A} (m : M (Ext:=Ext) A) : Prop :=
  ∀ w, failed (m w).1 → db (m w).2 = db w.

End Relations.

(** More scripted services and worlds. *)
Module Scripted2.
Import Scripted.

(** A sandbox that can be created but never reached again. *)
Definition svc_unreachable : Services remote :=
  {| sandbox_create := sandbox_create svc_done;
     getSandbox := λ _ x, (Rejected (Exn "NotFoundError: sandbox"), x);
     commands_run := commands_run svc_done;
     files_write := files_write svc_done;
     files_read := files_read svc_done;
     getHost := getHost svc_done;
     infer := infer svc_done;
     title_generator := title_generator svc_done;
     response_generator := response_generator svc_done;
     now := now svc_done |}.

(** The agent writes a file named [__proto__] and closes with a
    summary. *)
Definition script_proto (n : nat) : AgentResult :=
  mkAgentResult (Some "<task_summary>Wrote the file.</task_summary>")
    [CallCreateOrUpdateFiles [mkFileEntry "__proto__" "x"]].

Definition svc_proto : Services remote := services script_proto shell_ok.

(** A sandbox file system with two files. *)
Definition world_fs : World remote :=
  mkWorld (mkState (mkAgentState "" ∅) [])
    (mkRemote 0 {[ "a.ts" := "A"; "b.ts" := "B" ]}) [].

(** A table whose rows are all older than the clock of [world0] will be at
    the end of a run on [script_done] (one inference, so time 1). *)
Definition world_history : World remote :=
  mkWorld (mkState (mkAgentState "" ∅) []) (mkRemote 0 ∅)
    [row "p1" USER (-5); row "p2" USER 7; row "p1" ASSISTANT (-4)].

Definition rv_history : ReturnValue :=
  returned (codeAgentFunction svc_done 15 event0 world_history).1.
Definition after_history : World remote :=
  (codeAgentFunction svc_done 15 event0 world_history).2.

(** The workflow started with leftovers in the agent state. *)
Definition world_stale : World remote :=
  mkWorld
    (mkState (mkAgentState "old summary" {[ "old.ts" := "x" ]})
       [mkMessage "text" user "old"])
    (mkRemote 0 ∅) [].

(** The one-shot agent of [hello-world]. *)
Definition hello_agent (prompt : string) (x : remote)
  : settled string * remote :=
  (Resolved ("snippet for: " ++ prompt), mkRemote (S (turn x)) (fs x)).

Definition hello_create (template : string) (x : remote)
  : settled string * remote :=
  (Resolved "sbx", x).

End Scripted2.

(* ================================================================== *)
(** * Facts about JavaScript strings                                   *)
(* ================================================================== *)

Lemma truthy_true s : Js.truthy s = true ↔ s ≠ "".
Proof. destruct s; simpl; split; intros; congruence. Qed.

Lemma truthy_false s : Js.truthy s = false ↔ s = "".
Proof. destruct s; simpl; split; intros; congruence. Qed.

Lemma includes_nonempty hay needle :
  needle ≠ "" → Js.includes hay needle = true → hay ≠ "".
Proof.
  intros Hn. destruct hay as [|c rest]; simpl; [|congruence].
  rewrite orb_false_r. intros Hp.
  destruct needle; simpl in Hp; congruence.
Qed.

(* ================================================================== *)
(** * Laws of the step monad                                           *)
(* ================================================================== *)

Section StepLaws.
Context {Ext : Type}.
Local Abbreviation M := (M (Ext:=Ext)).

Lemma bind_Returned {A B} (m : M A) (k : A → M B) w b w' :
  bind m k w = (Returned b, w') ↔
  ∃ a w1, m w = (Returned a, w1) ∧ k a w1 = (Returned b, w').
Proof.
  unfold bind. destruct (m w) as [[a|e|] w1]; split.
  - eauto.
  - intros (a' & w2 & [= -> ->] & Hk). exact Hk.
  - discriminate.
  - intros (? & ? & [=] & _).
  - discriminate.
  - intros (? & ? & [=] & _).
Qed.

Lemma bind_ret_l {A B} (a : A) (k : A → M B) w : bind (ret a) k w = k a w.
Proof. reflexivity. Qed.

(** ** Computations that never run out of fuel *)

Local Abbreviation fuel_free m := (fuel_free (Ext:=Ext) m).

Lemma fuel_free_ret {A} (a : A) : fuel_free (ret a).
Proof. intros w. discriminate. Qed.

Lemma fuel_free_throw {A} e : fuel_free (throw (A:=A) e).
Proof. intros w. discriminate. Qed.

Lemma fuel_free_call {A} (f : Ext → settled A * Ext) : fuel_free (call f).
Proof. intros w. unfold call. destruct (f (ext w)) as [[a|e] x]; discriminate. Qed.

Lemma fuel_free_get_state : fuel_free get_state.
Proof. intros w. discriminate. Qed.

Lemma fuel_free_put_state s : fuel_free (put_state s).
Proof. intros w. discriminate. Qed.

Lemma fuel_free_get_ext : fuel_free get_ext.
Proof. intros w. discriminate. Qed.

Lemma fuel_free_get_db : fuel_free get_db.
Proof. intros w. discriminate. Qed.

Lemma fuel_free_bind {A B} (m : M A) (k : A → M B) :
  fuel_free m → (∀ a, fuel_free (k a)) → fuel_free (bind m k).
Proof.
  intros Hm Hk w. unfold bind. specialize (Hm w).
  destruct (m w) as [[a|e|] w1]; simpl in *; try done. apply Hk.
Qed.

Lemma fuel_free_try_catch {A} (body : M A) handler :
  fuel_free body → (∀ e, fuel_free (handler e)) →
  fuel_free (try_catch body handler).
Proof.
  intros Hm Hk w. unfold try_catch. specialize (Hm w).
  destruct (body w) as [[a|e|] w1]; simpl in *; try done. apply Hk.
Qed.

Lemma fuel_free_for_of {A} (xs : list A) body :
  (∀ x, fuel_free (body x)) → fuel_free (for_of xs body).
Proof.
  intros Hb. induction xs as [|x xs IH]; simpl.
  - apply fuel_free_ret.
  - apply fuel_free_bind; auto.
Qed.

Lemma fuel_free_promise_all_map {A B} (xs : list A) (f : A → M B) :
  (∀ x, fuel_free (f x)) → fuel_free (promise_all_map xs f).
Proof.
  intros Hf. induction xs as [|x xs IH]; simpl.
  - apply fuel_free_ret.
  - apply fuel_free_bind; [auto|]. intros y.
    apply fuel_free_bind; [auto|]. intros ys. apply fuel_free_ret.
Qed.

Lemma fuel_free_step_run {A} id (body : M A) :
  fuel_free body → fuel_free (step_run id body).
Proof. done. Qed.

Lemma fuel_free_opt_step_run {A} step id (body : M A) :
  fuel_free body → fuel_free (opt_step_run step id body).
Proof.
  intros Hb. destruct step as [[]|]; simpl.
  - apply fuel_free_bind; [done|]. intros a. apply fuel_free_ret.
  - apply fuel_free_ret.
Qed.

(** ** Computations that leave part of the world alone *)

Section Frame.
Variable R : World Ext → World Ext → Prop.
Hypothesis R_refl : ∀ w, R w w.
Hypothesis R_trans : ∀ w1 w2 w3, R w1 w2 → R w2 w3 → R w1 w3.

Local Abbreviation keeps := (keeps R).

Lemma keeps_ret {A} (a : A) : keeps (ret a).
Proof. intros w. apply R_refl. Qed.

Lemma keeps_get_state : keeps get_state.
Proof. intros w. apply R_refl. Qed.

Lemma keeps_get_ext : keeps get_ext.
Proof. intros w. apply R_refl. Qed.

Lemma keeps_get_db : keeps get_db.
Proof. intros w. apply R_refl. Qed.

Lemma keeps_bind {A B} (m : M A) (k : A → M B) :
  keeps m → (∀ a, keeps (k a)) → keeps (bind m k).
Proof.
  intros Hm Hk w. unfold bind. specialize (Hm w).
  destruct (m w) as [[a|e|] w1]; simpl in *; try done.
  eapply R_trans; [exact Hm|apply Hk].
Qed.

Lemma keeps_try_catch {A} (body : M A) handler :
  keeps body → (∀ e, keeps (handler e)) → keeps (try_catch body handler).
Proof.
  intros Hm Hk w. unfold try_catch. specialize (Hm w).
  destruct (body w) as [[a|e|] w1]; simpl in *; try done.
  eapply R_trans; [exact Hm|apply Hk].
Qed.

Lemma keeps_for_of {A} (xs : list A) body :
  (∀ x, keeps (body x)) → keeps (for_of xs body).
Proof.
  intros Hb. induction xs as [|x xs IH]; simpl.
  - apply keeps_ret.
  - apply keeps_bind; auto.
Qed.

Lemma keeps_promise_all_map {A B} (xs : list A) (f : A → M B) :
  (∀ x, keeps (f x)) → keeps (promise_all_map xs f).
Proof.
  intros Hf. induction xs as [|x xs IH]; simpl.
  - apply keeps_ret.
  - apply keeps_bind; [auto|]. intros y.
    apply keeps_bind; [auto|]. intros ys. apply keeps_ret.
Qed.

Lemma keeps_opt_step_run {A} step id (body : M A) :
  keeps body → keeps (opt_step_run step id body).
Proof.
  intros Hb. destruct step as [[]|]; simpl.
  - apply keeps_bind; [done|]. intros a. apply keeps_ret.
  - apply keeps_ret.
Qed.

Hypothesis R_ext : ∀ w x, R w (mkWorld (state w) x (db w)).

Lemma keeps_call {A} (f : Ext → settled A * Ext) : keeps (call f).
Proof.
  intros w. unfold call. destruct (f (ext w)) as [[a|e] x]; apply R_ext.
Qed.

End Frame.
End StepLaws.

(* ================================================================== *)
(** * The file mapping under assignments                               *)
(* ================================================================== *)

Lemma write_entries_app (o : gmap string string) l1 l2 :
  write_entries o (l1 ++ l2) = write_entries (write_entries o l1) l2.
Proof. unfold write_entries. apply foldl_app. Qed.

Lemma write_entries_cons (o : gmap string string) f l :
  write_entries o (f :: l) =
  write_entries (Js.assign o (path f) (file_content f)) l.
Proof. reflexivity. Qed.

Lemma assign_lookup_ne (o : gmap string string) k v p :
  k ≠ p → Js.assign o k v !! p = o !! p.
Proof.
  intros Hne. unfold Js.assign. destruct (String.eqb k "__proto__"); [done|].
  by apply lookup_insert_ne.
Qed.

Lemma assign_lookup_eq (o : gmap string string) k v :
  k ≠ "__proto__" → Js.assign o k v !! k = Some v.
Proof.
  intros Hne. unfold Js.assign.
  destruct (String.eqb_spec k "__proto__"); [done|]. apply lookup_insert_eq.
Qed.

Lemma assign_proto (o : gmap string string) v :
  Js.assign o "__proto__" v = o.
Proof. reflexivity. Qed.

Lemma assign_dom (o : gmap string string) k v :
  dom o ⊆ dom (Js.assign o k v).
Proof.
  unfold Js.assign. destruct (String.eqb k "__proto__"); [done|].
  rewrite dom_insert. apply union_subseteq_r.
Qed.

Lemma write_entries_lookup_other (o : gmap string string) l p :
  p ∉ path <$> l → write_entries o l !! p = o !! p.
Proof.
  revert o. induction l as [|f l IH]; intros o Hp; [done|].
  rewrite write_entries_cons. rewrite fmap_cons in Hp.
  apply not_elem_of_cons in Hp as [Hne Hp].
  rewrite IH by done. by apply assign_lookup_ne.
Qed.

Lemma write_entries_lookup_last (o : gmap string string) l1 f l2 :
  path f ≠ "__proto__" →
  path f ∉ path <$> l2 →
  write_entries o (l1 ++ f :: l2) !! path f = Some (file_content f).
Proof.
  intros Hkey Hlast. rewrite write_entries_app, write_entries_cons.
  rewrite write_entries_lookup_other by done. by apply assign_lookup_eq.
Qed.

(** No write list changes what the mapping holds under [__proto__]. *)
Lemma write_entries_lookup_proto (o : gmap string string) l :
  write_entries o l !! "__proto__" = o !! "__proto__".
Proof.
  revert o. induction l as [|f l IH]; intros o; [done|].
  rewrite write_entries_cons, IH. unfold Js.assign.
  destruct (String.eqb_spec (path f) "__proto__") as [Heq|Hne]; [done|].
  by apply lookup_insert_ne.
Qed.

Lemma write_entries_dom (o : gmap string string) l :
  dom o ⊆ dom (write_entries o l).
Proof.
  revert o. induction l as [|f l IH]; intros o; [done|].
  rewrite write_entries_cons. etrans; [|apply IH]. apply assign_dom.
Qed.

(* ================================================================== *)
(** * Tools                                                            *)
(* ================================================================== *)

Section ToolFacts.
Context {Ext : Type} (svc : Services Ext).
Local Abbreviation M := (M (Ext:=Ext)).

(** The loop of [createOrUpdateFiles]: the entries whose sandbox write went
    through, a prefix [done] of the list, are exactly the assignments made
    to the shared mapping; nothing else of the state or the table moves. *)
Lemma write_loop_spec (entries : list FileEntry) (w : World Ext) r w' :
  for_of entries (write_one svc) w = (r, w') →
  ∃ done,
    done `prefix_of` entries ∧
    files (data (state w')) = write_entries (files (data (state w))) done ∧
    summary (data (state w')) = summary (data (state w)) ∧
    messages (state w') = messages (state w) ∧
    db w' = db w ∧
    (r = Returned tt → done = entries) ∧
    r ≠ OutOfFuel.
Proof.
  revert w. induction entries as [|f rest IH]; intros w; simpl.
  - intros [= <- <-]. exists []. split_and!; done.
  - unfold bind at 1. unfold write_one at 1. unfold bind at 1. unfold call.
    destruct (files_write svc (path f) (file_content f) (ext w))
      as [[[]|e] x]; simpl.
    + intros Hrest. apply IH in Hrest
        as (done & Hpre & Hf & Hs & Hm & Hd & Hok & Hfuel).
      simpl in *. exists (f :: done). split_and!; try done.
      * by apply prefix_cons.
      * intros Hr. by rewrite Hok.
    + intros [= <- <-]. exists []. split_and!; try done. apply prefix_nil.
Qed.

(** What a call of the [createOrUpdateFiles] handler does to the world. *)
Lemma createOrUpdateFiles_spec sandboxId entries step (w : World Ext) r w' :
  createOrUpdateFiles_handler svc sandboxId entries step w = (r, w') →
  ∃ done,
    done `prefix_of` entries ∧
    files (data (state w')) = write_entries (files (data (state w))) done ∧
    summary (data (state w')) = summary (data (state w)) ∧
    messages (state w') = messages (state w) ∧
    db w' = db w ∧
    (step = Some InngestStep → r = Returned tt → done = entries) ∧
    (step = None → r = Returned tt ∧ w' = w) ∧
    r ≠ OutOfFuel.
Proof.
  destruct step as [[]|]; simpl.
  - unfold createOrUpdateFiles_handler, opt_step_run, step_run.
    unfold bind at 1. unfold bind at 1. unfold bind at 1. unfold bind at 1.
    unfold call at 1.
    destruct (getSandbox svc sandboxId (ext w)) as [[[]|e] x]; simpl.
    + unfold bind at 1.
      destruct (for_of entries (write_one svc) _) as [r1 w1] eqn:Hloop.
      apply write_loop_spec in Hloop
        as (done & Hpre & Hf & Hs & Hm & Hd & Hok & Hfuel).
      simpl in *.
      destruct r1 as [[]|e|]; simpl; [| |done]; intros [= <- <-]; simpl.
      * exists done. rewrite Hf, Hs, Hm, Hd. split_and!; done.
      * exists done. split_and!; done.
    + intros [= <- <-]. exists []. split_and!; try done. apply prefix_nil.
  - intros [= <- <-]. exists []. split_and!; try done. apply prefix_nil.
Qed.

Lemma terminal_handler_spec sandboxId command step (w : World Ext) :
  terminal_handler svc sandboxId command step w =
  match step with
  | None => (Returned None, w)
  | Some InngestStep =>
      match getSandbox svc sandboxId (ext w) with
      | (Resolved _, x1) =>
          match commands_run svc command x1 with
          | (Resolved stdout, x2) =>
              (Returned (Some stdout), mkWorld (state w) x2 (db w))
          | (Rejected e, x2) =>
              (Returned (Some ("Command failed: " ++ exn_text e)),
               mkWorld (state w) x2 (db w))
          end
      | (Rejected e, x1) =>
          (Returned (Some ("Command failed: " ++ exn_text e)),
           mkWorld (state w) x1 (db w))
      end
  end.
Proof.
  destruct step as [[]|]; [|done].
  unfold terminal_handler, opt_step_run, step_run, try_catch, bind, call.
  simpl.
  destruct (getSandbox svc sandboxId (ext w)) as [[[]|e] x1]; simpl; [|done].
  destruct (commands_run svc command x1) as [[out|e] x2]; done.
Qed.

End ToolFacts.

(* ================================================================== *)
(** * Proof automation for steps                                       *)
(* ================================================================== *)

Lemma same_db_refl {Ext} (w : World Ext) : same_db w w.
Proof. done. Qed.

Lemma same_db_trans {Ext} (w1 w2 w3 : World Ext) :
  same_db w1 w2 → same_db w2 w3 → same_db w1 w3.
Proof. unfold same_db. congruence. Qed.

Lemma same_db_ext {Ext} (w : World Ext) x :
  same_db w (mkWorld (state w) x (db w)).
Proof. done. Qed.

Lemma keeps_db_put_state {Ext} (s : State) :
  keeps (Ext:=Ext) same_db (put_state s).
Proof. intros w. done. Qed.

Ltac fuel_free_step :=
  first
    [ apply fuel_free_ret | apply fuel_free_call | apply fuel_free_get_state
    | apply fuel_free_put_state | apply fuel_free_get_ext
    | apply fuel_free_get_db | apply fuel_free_bind
    | apply fuel_free_try_catch | apply fuel_free_for_of
    | apply fuel_free_promise_all_map | apply fuel_free_opt_step_run ].

Ltac fuel_free_tac := repeat (intros; fuel_free_step).

Ltac keeps_db_step :=
  first
    [ apply (keeps_ret _ same_db_refl)
    | apply (keeps_call _ same_db_ext)
    | apply (keeps_get_state _ same_db_refl)
    | apply (keeps_get_ext _ same_db_refl)
    | apply (keeps_get_db _ same_db_refl)
    | apply keeps_db_put_state
    | apply (keeps_bind _ same_db_trans)
    | apply (keeps_try_catch _ same_db_trans)
    | apply (keeps_for_of _ same_db_refl same_db_trans)
    | apply (keeps_promise_all_map _ same_db_refl same_db_trans)
    | apply (keeps_opt_step_run _ same_db_refl same_db_trans) ].

Ltac keeps_db_tac := repeat (intros; keeps_db_step).

(* ================================================================== *)
(** * The agent and the network                                        *)
(* ================================================================== *)

Section NetworkFacts.
Context {Ext : Type} (svc : Services Ext).
Local Abbreviation M := (M (Ext:=Ext)).

Lemma router_spec (w : World Ext) :
  router w =
  (Returned (if Js.truthy (summary (data (state w)))
             then None else Some codeAgent), w).
Proof.
  unfold router, get_data, bind, get_state, ret. simpl.
  by destruct (Js.truthy _).
Qed.

Lemma fuel_free_invoke_tool sandboxId step tc :
  fuel_free (invoke_tool svc sandboxId step tc).
Proof.
  destruct tc; simpl;
    unfold terminal_handler, createOrUpdateFiles_handler, readFiles_handler,
      write_one, assign_current_file, set_files, get_data.
  - fuel_free_tac.
  - fuel_free_tac. destruct a; fuel_free_tac.
  - fuel_free_tac.
Qed.

Lemma fuel_free_onResponse result : fuel_free (onResponse (Ext:=Ext) result).
Proof.
  unfold onResponse, set_summary.
  destruct (last_text result) as [text|]; [|fuel_free_tac].
  destruct (Js.includes _ _); fuel_free_tac.
Qed.

(** [onResponse] leaves the summary alone or sets it to a text that carries
    the completion tag, which is then not empty. *)
Lemma onResponse_summary result (w : World Ext) :
  let w' := (onResponse result w).2 in
  summary (data (state w')) = summary (data (state w)) ∨
  (Js.includes (summary (data (state w'))) "<task_summary>" = true ∧
   summary (data (state w')) ≠ "").
Proof.
  unfold onResponse. destruct (last_text result) as [text|]; [|by left].
  destruct (Js.includes text "<task_summary>") eqn:Htag; [|by left].
  right. unfold set_summary, bind, get_state, put_state, ret. simpl.
  split; [exact Htag|]. by eapply includes_nonempty; [|exact Htag].
Qed.

Lemma fuel_free_agent_run a sandboxId input step :
  fuel_free (agent_run svc a sandboxId input step).
Proof.
  destruct a. unfold agent_run, codeAgent_run. fuel_free_tac.
  - apply fuel_free_onResponse.
  - apply fuel_free_invoke_tool.
Qed.

Lemma keeps_db_invoke_tool sandboxId step tc :
  keeps same_db (invoke_tool svc sandboxId step tc).
Proof.
  destruct tc; simpl;
    unfold terminal_handler, createOrUpdateFiles_handler, readFiles_handler,
      write_one, assign_current_file, set_files, get_data.
  - keeps_db_tac.
  - keeps_db_tac. destruct a; keeps_db_tac.
  - keeps_db_tac.
Qed.

Lemma keeps_db_onResponse result :
  keeps same_db (onResponse (Ext:=Ext) result).
Proof.
  unfold onResponse, set_summary.
  destruct (last_text result) as [text|]; [|keeps_db_tac].
  destruct (Js.includes _ _); keeps_db_tac.
Qed.

Lemma keeps_db_agent_run a sandboxId input step :
  keeps same_db (agent_run svc a sandboxId input step).
Proof.
  destruct a. unfold agent_run, codeAgent_run. keeps_db_tac.
  - apply keeps_db_onResponse.
  - apply keeps_db_invoke_tool.
Qed.

Lemma keeps_db_network_loop cap sandboxId input step fuel stack counter :
  keeps same_db (network_loop svc cap sandboxId input step fuel stack counter).
Proof.
  revert stack counter.
  induction fuel as [|fuel IH]; intros stack counter;
    destruct stack as [|a stack']; simpl; try (intros w; done);
    destruct (_ || _); try (intros w; done).
  keeps_db_tac;
    [ apply keeps_db_agent_run
    | intros d; destruct (Js.truthy _); keeps_db_tac
    | intros next; apply IH ].
Qed.

(** One pass through the body of the loop. *)
Lemma network_loop_turn (cap fuel counter : nat) sandboxId input step a
  (w w1 : World Ext) :
  (cap =? 0)%nat || (counter <? cap)%nat = true →
  agent_run svc a sandboxId input step w = (Returned tt, w1) →
  network_loop svc cap sandboxId input step (S fuel) [a] counter w =
  network_loop svc cap sandboxId input step fuel
    (option_list
       (if Js.truthy (summary (data (state w1)))
        then None else Some codeAgent))
    (S counter) w1.
Proof.
  intros Hguard Hturn.
  cbn [network_loop]. rewrite Hguard. unfold bind at 1. rewrite Hturn.
  unfold bind at 1. by rewrite router_spec.
Qed.

Lemma keeps_db_network_run cap sandboxId input step fuel :
  keeps same_db (network_run svc cap sandboxId input step fuel).
Proof.
  unfold network_run. apply (keeps_bind _ same_db_trans).
  - intros w. rewrite router_spec. done.
  - intros [a|]; [apply keeps_db_network_loop|intros w; done].
Qed.

End NetworkFacts.

(* ================================================================== *)
(** * The router loop is bounded                                       *)
(* ================================================================== *)

Section LoopFacts.
Context {Ext : Type} (svc : Services Ext).

(** With a cap of at least one and fuel for the turns that remain, the
    loop ends: by a throw of the agent, or with a count [n] of turns that
    is within the cap, the summary being set unless [n] is the cap. *)
Lemma network_loop_bounded (cap : nat) sandboxId input step :
  (1 ≤ cap)%nat →
  ∀ (fuel : nat) stack (counter : nat) (w : World Ext) r w',
    (counter ≤ cap)%nat → (cap ≤ counter + fuel)%nat →
    (length stack ≤ 1)%nat →
    (stack = [] → summary (data (state w)) ≠ "") →
    network_loop svc cap sandboxId input step fuel stack counter w = (r, w') →
    r ≠ OutOfFuel ∧
    ∀ n, r = Returned n →
         (counter ≤ n ≤ cap)%nat ∧
         (summary (data (state w')) ≠ "" ∨ n = cap).
Proof.
  intros Hcap. induction fuel as [|fuel IH];
    intros stack counter w r w' Hc Hfuel Hlen Hempty;
    (destruct stack as [|a stack']; simpl;
     [ intros [= <- <-]; split; [done|]; intros n [= <-];
       split; [lia|left; by apply Hempty] |]).
  - destruct (Nat.eqb_spec cap 0) as [->|_]; [lia|]. simpl.
    destruct (Nat.ltb_spec counter cap) as [Hlt|Hge]; [lia|].
    intros [= <- <-]. split; [done|]. intros n [= <-]. split; [lia|right; lia].
  - destruct (Nat.eqb_spec cap 0) as [->|_]; [lia|]. simpl.
    destruct (Nat.ltb_spec counter cap) as [Hlt|Hge].
    + destruct stack' as [|? ?]; [|simpl in Hlen; lia]. simpl.
      unfold bind at 1.
      pose proof (fuel_free_agent_run svc a sandboxId input step w) as Hff.
      destruct (agent_run svc a sandboxId input step w) as [[[]|e|] w1];
        simpl in Hff; [| |done].
      * unfold bind at 1. rewrite router_spec.
        destruct (Js.truthy (summary (data (state w1)))) eqn:Ht; simpl;
          intros Hloop; apply IH in Hloop; simpl; try lia.
        -- destruct Hloop as [Hr Hn]. split; [done|].
           intros n Hrn. destruct (Hn n Hrn). split; [lia | done].
        -- intros _. by apply truthy_true.
        -- destruct Hloop as [Hr Hn]. split; [done|].
           intros n Hrn. destruct (Hn n Hrn). split; [lia | done].
        -- done.
      * intros [= <- <-]. split; done.
    + intros [= <- <-]. split; [done|]. intros n [= <-].
      split; [lia|right; lia].
Qed.

Lemma network_run_bounded (cap fuel : nat) sandboxId input step
  (w : World Ext) r w' :
  (1 ≤ cap)%nat → (cap ≤ fuel)%nat →
  network_run svc cap sandboxId input step fuel w = (r, w') →
  r ≠ OutOfFuel ∧
  ∀ n, r = Returned n →
       (n ≤ cap)%nat ∧ (summary (data (state w')) ≠ "" ∨ n = cap).
Proof.
  intros Hcap Hfuel Hrun.
  unfold network_run, bind in Hrun. rewrite router_spec in Hrun.
  destruct (Js.truthy (summary (data (state w)))) eqn:Ht; simpl in Hrun.
  - injection Hrun as <- <-. split; [done|]. intros n [= <-].
    split; [lia|]. left. by apply truthy_true.
  - apply network_loop_bounded in Hrun as [Hr Hn]; simpl; try done; try lia.
    split; [done|]. intros n Hrn. destruct (Hn n Hrn). split; [lia|done].
Qed.

Lemma fuel_free_network_run (cap fuel : nat) sandboxId input step :
  (1 ≤ cap)%nat → (cap ≤ fuel)%nat →
  fuel_free (network_run svc cap sandboxId input step fuel).
Proof.
  intros Hcap Hfuel w.
  destruct (network_run svc cap sandboxId input step fuel w) as [r w'] eqn:Hrun.
  by apply network_run_bounded in Hrun as [Hr _].
Qed.

End LoopFacts.

(* ================================================================== *)
(** * The previous messages                                            *)
(* ================================================================== *)

#[global] Instance newer_first_total : Total newer_first.
Proof. intros a b. unfold newer_first. lia. Qed.

#[global] Instance newer_first_trans : Transitive newer_first.
Proof. intros a b c. unfold newer_first. lia. Qed.

#[global] Instance older_first_trans : Transitive older_first.
Proof. intros a b c. unfold older_first. lia. Qed.

Lemma select_rows_length pid (n : nat) rows :
  (length (select_rows pid n rows) ≤ n)%nat.
Proof. unfold select_rows. rewrite length_take. lia. Qed.

Lemma select_rows_project pid (n : nat) rows r :
  r ∈ select_rows pid n rows → projectId r = pid ∧ r ∈ rows.
Proof.
  unfold select_rows. intros Hr.
  apply (subseteq_take n) in Hr.
  rewrite merge_sort_Permutation in Hr.
  apply list_elem_of_filter in Hr. done.
Qed.

Lemma select_rows_newer_first pid (n : nat) rows :
  StronglySorted newer_first (select_rows pid n rows).
Proof.
  unfold select_rows.
  set (sorted := merge_sort newer_first _).
  assert (StronglySorted newer_first sorted) as Hs
    by (apply StronglySorted_merge_sort; apply _).
  rewrite <- (take_drop n sorted) in Hs.
  by apply StronglySorted_app_1_l in Hs.
Qed.

Lemma select_rows_reverse_older_first pid (n : nat) rows :
  StronglySorted older_first (reverse (select_rows pid n rows)).
Proof.
  apply Sorted_StronglySorted; [apply _|].
  apply (Sorted_reverse newer_first).
  apply StronglySorted_Sorted, select_rows_newer_first.
Qed.

(** The loop that pushes one formatted message per row. *)
Lemma fold_push_formatted rows acc :
  fold_left push_formatted rows acc = (acc ++ (format_message <$> rows))%list.
Proof.
  revert acc. induction rows as [|r rows IH]; intros acc; simpl.
  - by rewrite app_nil_r.
  - rewrite IH. unfold push_formatted. by rewrite <- app_assoc.
Qed.

Lemma get_previous_messages_spec {Ext} event (w : World Ext) :
  get_previous_messages event w =
  (Returned
     (reverse (format_message <$> select_rows (ev_projectId event) 10 (db w))),
   w).
Proof.
  unfold get_previous_messages, step_run, message_findMany, bind, get_db, ret.
  simpl. by rewrite fold_push_formatted.
Qed.

(* ================================================================== *)
(** * Saving the result                                                *)
(* ================================================================== *)

Lemma Object_keys_length (o : gmap string string) :
  length (Object_keys o) = size o.
Proof. unfold Object_keys. by rewrite length_fmap, length_map_to_list. Qed.

Lemma isError_spec (d : AgentState) :
  isError d = true ↔ summary d = "" ∨ files d = ∅.
Proof.
  unfold isError. rewrite orb_true_iff, negb_true_iff, truthy_false.
  rewrite Nat.eqb_eq, Object_keys_length, map_size_empty_iff. done.
Qed.

Lemma isError_false (d : AgentState) :
  isError d = false ↔ summary d ≠ "" ∧ files d ≠ ∅.
Proof.
  rewrite <- not_true_iff_false, isError_spec.
  split; [|tauto]. intros H. split; intros ?; apply H; auto.
Qed.

Section WorkflowFacts.
Context {Ext : Type} (svc : Services Ext).

Lemma call_Returned {A} (f : Ext → settled A * Ext) (w : World Ext) a w' :
  call f w = (Returned a, w') →
  ∃ x, f (ext w) = (Resolved a, x) ∧ w' = mkWorld (state w) x (db w).
Proof.
  unfold call. destruct (f (ext w)) as [[a'|e] x]; intros [= <- <-]; eauto.
Qed.

Lemma get_sandbox_url_Returned sandboxId (w : World Ext) url w' :
  get_sandbox_url svc sandboxId w = (Returned url, w') →
  url = sandbox_url_of (getHost svc 3000 (ext w')) ∧
  state w' = state w ∧ db w' = db w.
Proof.
  unfold get_sandbox_url, step_run. intros H.
  apply bind_Returned in H as ([] & w1 & Hc & H).
  apply call_Returned in Hc as (x & _ & ->).
  unfold bind, get_ext, ret in H. simpl in H.
  by injection H as <- <-.
Qed.

(** The row [save-result] creates. *)
Lemma save_result_spec event (is_error : bool) d url titleOut respOut
  (w : World Ext) :
  let row :=
    if is_error
    then mkMessageRow (ev_projectId event) error_content ASSISTANT ERROR
           (now svc (ext w)) None
    else mkMessageRow (ev_projectId event) (parseAgentOutput respOut)
           ASSISTANT RESULT (now svc (ext w))
           (Some (mkFragment url (parseAgentOutput titleOut) (files d))) in
  save_result svc event is_error d url titleOut respOut w =
  (Returned row, mkWorld (state w) (ext w) (db w ++ [row])).
Proof. by destruct is_error. Qed.

(** A run of the workflow that returns: its return value and the one row it
    added to the message table, in terms of the final agent state. *)
Lemma codeAgentFunction_Returned fuel event (w : World Ext) rv w' :
  codeAgentFunction svc fuel event w = (Returned rv, w') →
  ∃ titleOut respOut,
    let d := data (state w') in
    let url := sandbox_url_of (getHost svc 3000 (ext w')) in
    rv = mkReturnValue url "Fragment" (files d) (summary d) ∧
    db w' =
    (db w ++
     [if isError d
      then mkMessageRow (ev_projectId event) error_content ASSISTANT ERROR
             (now svc (ext w')) None
      else mkMessageRow (ev_projectId event) (parseAgentOutput respOut)
             ASSISTANT RESULT (now svc (ext w'))
             (Some (mkFragment url (parseAgentOutput titleOut) (files d)))])%list.
Proof.
  unfold codeAgentFunction, step_run. intros H.
  apply bind_Returned in H as (sandboxId & w1 & H1 & H).
  apply call_Returned in H1 as (x1 & _ & ->).
  apply bind_Returned in H as (prev & w2 & H2 & H).
  rewrite get_previous_messages_spec in H2. injection H2 as <- <-.
  apply bind_Returned in H as ([] & w3 & H3 & H).
  injection H3 as <-.
  apply bind_Returned in H as (n & w4 & H4 & H).
  match type of H4 with
  | network_run _ _ _ _ _ _ ?w3 = _ =>
      pose proof (keeps_db_network_run svc maxIter sandboxId (ev_value event)
                    (Some InngestStep) fuel w3) as Hdb
  end.
  rewrite H4 in Hdb. unfold same_db in Hdb. simpl in Hdb.
  apply bind_Returned in H as (d & w5 & H5 & H).
  unfold get_data, bind, get_state, ret in H5. injection H5 as <- <-.
  apply bind_Returned in H as (titleOut & w6 & H6 & H).
  apply call_Returned in H6 as (x6 & _ & ->).
  apply bind_Returned in H as (respOut & w7 & H7 & H).
  apply call_Returned in H7 as (x7 & _ & ->).
  apply bind_Returned in H as (url & w8 & H8 & H).
  apply get_sandbox_url_Returned in H8 as (-> & Hs8 & Hd8).
  apply bind_Returned in H as (row & w9 & H9 & H).
  rewrite save_result_spec in H9. injection H9 as <- <-.
  unfold ret in H. injection H as <- <-. simpl in *.
  exists titleOut, respOut. rewrite Hs8, Hd8, Hdb. done.
Qed.

(** With fuel for the fifteen turns of the cap, a run of the workflow
    returns or throws: the model never leaves it unfinished. *)
Lemma codeAgentFunction_fuel_free (fuel : nat) event :
  (maxIter ≤ fuel)%nat → fuel_free (codeAgentFunction svc fuel event).
Proof.
  intros Hfuel. unfold codeAgentFunction, step_run.
  apply fuel_free_bind; [apply fuel_free_call|]. intros sandboxId.
  apply fuel_free_bind.
  { intros w. by rewrite get_previous_messages_spec. }
  intros prev. apply fuel_free_bind; [apply fuel_free_put_state|]. intros _.
  apply fuel_free_bind.
  { apply fuel_free_network_run; [unfold maxIter; lia|done]. }
  intros n. unfold get_data, get_sandbox_url, step_run.
  fuel_free_tac. intros w. by rewrite save_result_spec.
Qed.

End WorkflowFacts.

(* ================================================================== *)
(** * The properties of the specification                              *)
(* ================================================================== *)

Section Properties.
Context {Ext : Type} (svc : Services Ext).

(** C1: a run that returns added exactly one row to the message table. The
    run counts as failed exactly when the final summary is empty or the
    final file mapping has no entry; a failed run stores a row of type
    ERROR without fragment; any other run stores a row of type RESULT with
    one fragment that carries the sandbox URL, a title and the final file
    mapping. So the row has a fragment iff the summary and the file mapping
    are both non-empty. *)
Theorem run_message_classification fuel event (w : World Ext) rv w' :
  codeAgentFunction svc fuel event w = (Returned rv, w') →
  let d := data (state w') in
  ∃ row,
    db w' = (db w ++ [row])%list ∧
    (isError d = true ↔ summary d = "" ∨ files d = ∅) ∧
    (isError d = true → type row = ERROR ∧ fragment row = None) ∧
    (isError d = false →
       type row = RESULT ∧
       ∃ title,
         fragment row = Some (mkFragment (rv_url rv) title (files d))) ∧
    (is_Some (fragment row) ↔ summary d ≠ "" ∧ files d ≠ ∅).
Proof.
  intros Hrun d.
  apply codeAgentFunction_Returned in Hrun
    as (titleOut & respOut & -> & Hdb).
  fold d in Hdb. eexists. split; [exact Hdb|].
  split; [apply isError_spec|].
  rewrite <- isError_false.
  destruct (isError d); simpl; split_and!; try done.
  intros _. split; [done|]. by eexists.
Qed.

(** C2 (amended): a failed run stores the fixed text "Something went
    wrong. Please try again." in a row of type ERROR without fragment, so
    no file contents are persisted; the value it returns still carries the
    final file mapping of the agent state as it is. *)
Theorem failed_run_stores_fixed_message fuel event (w : World Ext) rv w' :
  codeAgentFunction svc fuel event w = (Returned rv, w') →
  isError (data (state w')) = true →
  ∃ row,
    db w' = (db w ++ [row])%list ∧
    content row = "Something went wrong. Please try again." ∧
    type row = ERROR ∧
    fragment row = None ∧
    rv_files rv = files (data (state w')).
Proof.
  intros Hrun Herr.
  apply codeAgentFunction_Returned in Hrun
    as (titleOut & respOut & -> & Hdb).
  rewrite Herr in Hdb. eexists. split; [exact Hdb|]. done.
Qed.

(** C3: the router yields no agent as soon as the summary is non-empty and
    yields [codeAgent] while it is empty, changing nothing. In the loop, a
    turn that leaves the summary non-empty is the last one, and a turn that
    leaves it empty is followed by another turn of [codeAgent]. *)
Theorem router_stops_once_summary_is_set (w : World Ext) :
  (summary (data (state w)) ≠ "" → router w = (Returned None, w)) ∧
  (summary (data (state w)) = "" →
   router w = (Returned (Some codeAgent), w)) ∧
  (∀ (cap fuel counter : nat) sandboxId input step w1,
     (cap =? 0)%nat || (counter <? cap)%nat = true →
     agent_run svc codeAgent sandboxId input step w = (Returned tt, w1) →
     (summary (data (state w1)) ≠ "" →
      network_loop svc cap sandboxId input step (S fuel) [codeAgent] counter w
      = (Returned (S counter), w1)) ∧
     (summary (data (state w1)) = "" →
      network_loop svc cap sandboxId input step (S fuel) [codeAgent] counter w
      = network_loop svc cap sandboxId input step fuel [codeAgent]
          (S counter) w1)).
Proof.
  split_and!.
  - intros Hs. rewrite router_spec.
    apply truthy_true in Hs. by rewrite Hs.
  - intros Hs. rewrite router_spec.
    apply truthy_false in Hs. by rewrite Hs.
  - intros cap fuel counter sandboxId input step w1 Hguard Hturn.
    rewrite (network_loop_turn svc cap fuel counter _ _ _ _ w w1 Hguard Hturn).
    split; intros Hs.
    + apply truthy_true in Hs. rewrite Hs. by destruct fuel.
    + apply truthy_false in Hs. by rewrite Hs.
Qed.

(** C4: with a cap of at least one (and fuel for as many turns) the run of
    the network ends: it does not run out of fuel, and when it returns it
    took at most [cap] turns and either the summary is set or exactly
    [cap] turns were taken. *)
Theorem network_run_within_cap (cap fuel : nat) sandboxId input step
  (w : World Ext) :
  (1 ≤ cap)%nat → (cap ≤ fuel)%nat →
  ∃ r w',
    network_run svc cap sandboxId input step fuel w = (r, w') ∧
    r ≠ OutOfFuel ∧
    ∀ n, r = Returned n →
         (n ≤ cap)%nat ∧ (summary (data (state w')) ≠ "" ∨ n = cap).
Proof.
  intros Hcap Hfuel.
  destruct (network_run svc cap sandboxId input step fuel w) as [r w'] eqn:Hrun.
  exists r, w'. split; [done|]. by eapply network_run_bounded.
Qed.

(** X15: after a call of the [createOrUpdateFiles] handler, every path
    outside the write list maps to what it mapped to before, no path of the
    mapping is gone, the summary is untouched, what the mapping holds under
    [__proto__] is never changed, and, when the call went through, each
    entry whose path is not [__proto__] and that is the last one for its
    path in the list is mapped to its content. *)
Theorem createOrUpdateFiles_merges sandboxId entries step (w : World Ext)
  r w' :
  createOrUpdateFiles_handler svc sandboxId entries step w = (r, w') →
  let before := files (data (state w)) in
  let after := files (data (state w')) in
  (∀ p, p ∉ path <$> entries → after !! p = before !! p) ∧
  dom before ⊆ dom after ∧
  after !! "__proto__" = before !! "__proto__" ∧
  (step = Some InngestStep → r = Returned tt →
   ∀ l1 file l2,
     entries = (l1 ++ file :: l2)%list → path file ≠ "__proto__" →
     path file ∉ path <$> l2 →
     after !! path file = Some (file_content file)) ∧
  summary (data (state w')) = summary (data (state w)).
Proof.
  intros Hrun before after.
  apply createOrUpdateFiles_spec in Hrun
    as (done & [rest Hpre] & Hf & Hs & _ & _ & Hok & _ & _).
  subst after before. rewrite Hf. split_and!.
  - intros p Hp. apply write_entries_lookup_other.
    intros Hin. apply Hp. rewrite Hpre, fmap_app. apply elem_of_app. by left.
  - apply write_entries_dom.
  - apply write_entries_lookup_proto.
  - intros Hstep Hr l1 file l2 -> Hkey Hlast.
    rewrite (Hok Hstep Hr). by apply write_entries_lookup_last.
  - done.
Qed.

(** C7: the terminal handler never throws and never diverges. Handed the
    step tools, it returns the standard output of the command when the
    sandbox is reached and the command succeeds, and the text
    "Command failed: " followed by the rendering of the thrown value when
    either of the two throws. *)
Theorem terminal_handler_never_throws sandboxId command step (w : World Ext) :
  ∃ v w',
    terminal_handler svc sandboxId command step w = (Returned v, w') ∧
    (step = Some InngestStep →
     (∀ x1 stdout x2,
        getSandbox svc sandboxId (ext w) = (Resolved tt, x1) →
        commands_run svc command x1 = (Resolved stdout, x2) →
        v = Some stdout) ∧
     (∀ e x1,
        getSandbox svc sandboxId (ext w) = (Rejected e, x1) →
        v = Some ("Command failed: " ++ exn_text e)) ∧
     (∀ x1 e x2,
        getSandbox svc sandboxId (ext w) = (Resolved tt, x1) →
        commands_run svc command x1 = (Rejected e, x2) →
        v = Some ("Command failed: " ++ exn_text e))) ∧
    (step = None → v = None).
Proof.
  rewrite terminal_handler_spec. destruct step as [[]|].
  - destruct (getSandbox svc sandboxId (ext w)) as [[[]|e] x1] eqn:Hg.
    + destruct (commands_run svc command x1) as [[out|e] x2] eqn:Hc;
        eexists _, _; (split; [reflexivity|]); (split; [|done]);
        intros _; split_and!; intros; simplify_eq; congruence.
    + eexists _, _. split; [reflexivity|]. split; [|done].
      intros _. split_and!; intros; simplify_eq; congruence.
  - eexists _, _. split; [reflexivity|]. split; done.
Qed.

(** C8: the value a run returns is the record of [url], [title], [files]
    and [summary] in which the title is the literal "Fragment" and the
    files and the summary are those of the final agent state; when the run
    stored a fragment, which it did unless it failed, [url] is the
    fragment's [sandboxUrl] and [files] its file mapping. *)
Theorem return_value_mirrors_fragment fuel event (w : World Ext) rv w' :
  codeAgentFunction svc fuel event w = (Returned rv, w') →
  let d := data (state w') in
  rv = mkReturnValue (rv_url rv) "Fragment" (files d) (summary d) ∧
  ∃ row,
    db w' = (db w ++ [row])%list ∧
    (isError d = false → is_Some (fragment row)) ∧
    ∀ frag, fragment row = Some frag →
            rv_url rv = sandboxUrl frag ∧ rv_files rv = frag_files frag.
Proof.
  intros Hrun d.
  apply codeAgentFunction_Returned in Hrun
    as (titleOut & respOut & -> & Hdb).
  fold d in Hdb. split; [done|]. eexists. split; [exact Hdb|].
  destruct (isError d); simpl; split; try done.
  - intros frag [= <-]. done.
Qed.

(** C10: the [url] a run returns is "https:", one backslash, and the host
    of the sandbox for port 3000; it does not start with "https://"; and
    it is what a stored fragment holds as [sandboxUrl]. *)
Theorem sandbox_url_has_backslash fuel event (w : World Ext) rv w' :
  codeAgentFunction svc fuel event w = (Returned rv, w') →
  rv_url rv = "https:" ++ String Js.backslash (getHost svc 3000 (ext w')) ∧
  nat_of_ascii Js.backslash = 92 ∧
  Js.startsWith (rv_url rv) "https://" = false ∧
  ∀ row frag, last (db w') = Some row → fragment row = Some frag →
              sandboxUrl frag = rv_url rv.
Proof.
  intros Hrun.
  apply codeAgentFunction_Returned in Hrun
    as (titleOut & respOut & -> & Hdb).
  simpl. split_and!; try done.
  intros row frag. rewrite Hdb, last_snoc. intros [= <-].
  destruct (isError _); simpl; [done|]. by intros [= <-].
Qed.

End Properties.

(** C5: the previous messages are the rows that the query fetches (those
    of the project, newest first, at most ten), formatted one by one and
    reversed; so they are at most ten and oldest first. A row is formatted
    as a text message with its content, whose role is assistant exactly
    when the row's role is ASSISTANT. *)
Theorem previous_messages_chronological {Ext} event (w : World Ext) :
  let fetched := select_rows (ev_projectId event) 10 (db w) in
  message_findMany (ev_projectId event) 10 w = (Returned fetched, w) ∧
  get_previous_messages event w =
    (Returned (reverse (format_message <$> fetched)), w) ∧
  reverse (format_message <$> fetched) = (format_message <$> reverse fetched) ∧
  (length (reverse (format_message <$> fetched)) ≤ 10)%nat ∧
  StronglySorted newer_first fetched ∧
  StronglySorted older_first (reverse fetched) ∧
  (∀ r, r ∈ fetched → projectId r = ev_projectId event ∧ r ∈ db w) ∧
  (∀ r, msg_type (format_message r) = "text" ∧
        msg_content (format_message r) = content r ∧
        (msg_role (format_message r) = assistant ↔ role r = ASSISTANT)).
Proof.
  intros fetched. split_and!.
  - done.
  - apply get_previous_messages_spec.
  - by rewrite fmap_reverse.
  - rewrite length_reverse, length_fmap. apply select_rows_length.
  - apply select_rows_newer_first.
  - apply select_rows_reverse_older_first.
  - intros r. apply select_rows_project.
  - intros r. split_and!; try done. unfold format_message. simpl.
    destruct (role r); split; intros; congruence.
Qed.

(** C9: [parseAgentOutput] gives the text itself on a plain output, the
    same text on an envelope of that text, and parsing its own result as a
    plain output changes nothing. *)
Theorem parseAgentOutput_plain_or_envelope (text tag : string) :
  parseAgentOutput (PlainText text) = text ∧
  parseAgentOutput (Envelope tag text) = parseAgentOutput (PlainText text) ∧
  ∀ output,
    parseAgentOutput (PlainText (parseAgentOutput output)) =
    parseAgentOutput output.
Proof. split_and!; [done|done|]. by intros []. Qed.

(* ================================================================== *)
(** * The properties on scripted runs                                  *)
(* ================================================================== *)

Section ScriptedRuns.
Import Scripted.

(** Scenario of the specification: the agent writes [pages/index.js] and
    closes with a summary; the stored row is a RESULT whose fragment holds
    exactly that file. *)
Example hello_world_run :
  ∃ rv w' frag,
    codeAgentFunction svc_done 15 event0 world0 = (Returned rv, w') ∧
    (type <$> db w') = [RESULT] ∧
    (fragment <$> db w') = [Some frag] ∧
    frag_files frag = {[ "pages/index.js" := "export default 1" ]} ∧
    turn (ext w') = 1%nat.
Proof. eexists _, _, _. split_and!; by vm_compute. Qed.

(** Scenario of the specification: the agent never closes within fifteen
    turns and writes nothing; the stored row is an ERROR without fragment
    and the returned files are empty. *)
Example idle_run :
  ∃ rv w',
    codeAgentFunction svc_idle 15 event0 world0 = (Returned rv, w') ∧
    (type <$> db w') = [ERROR] ∧
    (fragment <$> db w') = [None] ∧
    rv_files rv = ∅ ∧
    turn (ext w') = 15%nat.
Proof. eexists _, _. split_and!; by vm_compute. Qed.

(** One turn of the idle script. *)
Lemma idle_turn sandboxId input step (w : World remote) :
  agent_run svc_idle codeAgent sandboxId input step w =
  (Returned tt,
   mkWorld (state w) (mkRemote (S (turn (ext w))) (fs (ext w))) (db w)).
Proof. reflexivity. Qed.

(** Without a cap ([maxIter = 0]) the loop need not end: on the idle script
    every amount of fuel runs out. The bound of at least one is needed. *)
Lemma uncapped_idle_loop_runs_out_of_fuel sandboxId input step (fuel : nat) :
  ∀ (counter : nat) (w : World remote),
    summary (data (state w)) = "" →
    (network_loop svc_idle 0 sandboxId input step fuel [codeAgent] counter w).1
    = OutOfFuel.
Proof.
  induction fuel as [|fuel IH]; intros counter w Hs; [done|].
  rewrite (network_loop_turn svc_idle 0 fuel counter _ _ _ _ w _ eq_refl
             (idle_turn sandboxId input step w)).
  simpl. rewrite Hs. simpl. by apply IH.
Qed.

End ScriptedRuns.

(** Witness of C1 on the run that writes a file and closes. *)
Lemma run_message_classification_witness :
  codeAgentFunction Scripted.svc_done 15 Scripted.event0 Scripted.world0
  = (Returned Scripted.rv_done, Scripted.after_done) ∧
  ∃ row,
    db Scripted.after_done = [row] ∧ type row = RESULT ∧
    is_Some (fragment row).
Proof.
  assert (codeAgentFunction Scripted.svc_done 15 Scripted.event0
            Scripted.world0
          = (Returned Scripted.rv_done, Scripted.after_done)) as Hrun
    by (vm_compute; reflexivity).
  split; [exact Hrun|].
  destruct (run_message_classification _ _ _ _ _ _ Hrun)
    as (row & Hdb & _ & _ & Hok & _).
  exists row. split; [exact Hdb|].
  destruct Hok as [Ht [title Hf]]; [by vm_compute|].
  split; [exact Ht|]. rewrite Hf. by eexists.
Defined.

(** The claim C2 as stated fails: on the run that writes one file and never
    closes, the run is classified as failed and the fixed text is stored,
    yet the returned value holds the file written during the run. *)
Lemma failed_run_exposes_written_files :
  codeAgentFunction Scripted.svc_unfinished 15 Scripted.event0 Scripted.world0
  = (Returned Scripted.rv_unfinished, Scripted.after_unfinished) ∧
  isError (data (state Scripted.after_unfinished)) = true ∧
  (content <$> db Scripted.after_unfinished)
  = ["Something went wrong. Please try again."] ∧
  rv_files Scripted.rv_unfinished !! "pages/index.js"
  = Some "export default 1" ∧
  rv_files Scripted.rv_unfinished ≠ ∅.
Proof.
  split_and!; try (vm_compute; reflexivity).
  intros Hempty.
  assert (rv_files Scripted.rv_unfinished !! "pages/index.js" = None) as Hnone
    by (rewrite Hempty; apply lookup_empty).
  vm_compute in Hnone. discriminate.
Qed.

(** C6: the handler misses one path. Asked to write a file named
    [__proto__], it writes the file in the sandbox and returns, but the
    assignment to the shared mapping reaches the prototype accessor and
    records nothing: the mapping has no entry and no key. A run whose
    agent writes only that file and closes with a summary is stored as an
    ERROR and returns no files. *)
Theorem createOrUpdateFiles_misses_proto :
  let handled :=
    createOrUpdateFiles_handler Scripted.svc_idle "sbx"
      [mkFileEntry "__proto__" "x"] (Some InngestStep) Scripted.world0 in
  let run :=
    codeAgentFunction Scripted2.svc_proto 15 Scripted.event0
      Scripted.world0 in
  handled.1 = Returned tt ∧
  Scripted.fs (ext handled.2) !! "__proto__" = Some "x" ∧
  files (data (state handled.2)) !! "__proto__" = None ∧
  Object_keys (files (data (state handled.2))) = [] ∧
  Scripted.fs (ext run.2) !! "__proto__" = Some "x" ∧
  (type <$> db run.2) = [ERROR] ∧
  rv_files (Scripted.returned run.1) = ∅.
Proof. split_and!; vm_compute; reflexivity. Qed.

(** Witness of C2 (amended) on the same run. *)
Lemma failed_run_stores_fixed_message_witness :
  codeAgentFunction Scripted.svc_unfinished 15 Scripted.event0 Scripted.world0
  = (Returned Scripted.rv_unfinished, Scripted.after_unfinished) ∧
  isError (data (state Scripted.after_unfinished)) = true ∧
  ∃ row,
    db Scripted.after_unfinished = [row] ∧
    content row = "Something went wrong. Please try again." ∧
    fragment row = None ∧
    rv_files Scripted.rv_unfinished
    = files (data (state Scripted.after_unfinished)).
Proof.
  assert (codeAgentFunction Scripted.svc_unfinished 15 Scripted.event0
            Scripted.world0
          = (Returned Scripted.rv_unfinished, Scripted.after_unfinished))
    as Hrun by (vm_compute; reflexivity).
  assert (isError (data (state Scripted.after_unfinished)) = true) as Herr
    by (vm_compute; reflexivity).
  split; [exact Hrun|]. split; [exact Herr|].
  destruct (failed_run_stores_fixed_message _ _ _ _ _ _ Hrun Herr)
    as (row & Hdb & Hc & _ & Hf & Hfiles).
  exists row. split_and!; [exact Hdb|exact Hc|exact Hf|exact Hfiles].
Defined.

(** Witness of C3: before the first turn the router picks [codeAgent];
    the turn of [script_done] sets the summary, the loop ends after it, and
    the router then picks nobody. *)
Lemma router_stops_once_summary_is_set_witness :
  router Scripted.world0 = (Returned (Some codeAgent), Scripted.world0) ∧
  router Scripted.world_done = (Returned None, Scripted.world_done) ∧
  network_loop Scripted.svc_done 15 "sbx" "hello" (Some InngestStep) 15
    [codeAgent] 0 Scripted.world0
  = (Returned 1%nat, Scripted.world_done).
Proof.
  destruct (router_stops_once_summary_is_set Scripted.svc_done Scripted.world0)
    as (_ & Hempty & Hloop).
  destruct (router_stops_once_summary_is_set Scripted.svc_done
              Scripted.world_done) as (Hset & _ & _).
  split_and!.
  - apply Hempty. reflexivity.
  - apply Hset. vm_compute. discriminate.
  - apply (Hloop 15%nat 14%nat 0%nat "sbx" "hello" (Some InngestStep)
             Scripted.world_done).
    + reflexivity.
    + vm_compute. reflexivity.
    + vm_compute. discriminate.
Defined.

(** Witness of C4: the idle script under the cap of fifteen. *)
Lemma network_run_within_cap_witness :
  (1 ≤ 15)%nat ∧ (15 ≤ 15)%nat ∧
  ∃ r w',
    network_run Scripted.svc_idle 15 "sbx" "hello" (Some InngestStep) 15
      Scripted.world0 = (r, w') ∧
    r ≠ OutOfFuel ∧
    ∀ n, r = Returned n →
         (n ≤ 15)%nat ∧ (summary (data (state w')) ≠ "" ∨ n = 15%nat).
Proof.
  split; [lia|]. split; [lia|].
  apply (network_run_within_cap Scripted.svc_idle 15 15 "sbx" "hello"
           (Some InngestStep) Scripted.world0); lia.
Defined.

(** Witness of C5: of eleven messages of the project, stored out of order,
    the ten newest come back, oldest first. *)
Lemma previous_messages_chronological_witness :
  get_previous_messages Scripted.event0 Scripted.world_table
  = (Returned
       (format_message <$>
          [Scripted.row "p1" USER 1; Scripted.row "p1" ASSISTANT 2;
           Scripted.row "p1" USER 3; Scripted.row "p1" ASSISTANT 4;
           Scripted.row "p1" USER 5; Scripted.row "p1" ASSISTANT 6;
           Scripted.row "p1" ASSISTANT 8; Scripted.row "p1" USER 9;
           Scripted.row "p1" ASSISTANT 10; Scripted.row "p1" USER 11]),
     Scripted.world_table) ∧
  StronglySorted older_first
    (reverse (select_rows "p1" 10 (db Scripted.world_table))).
Proof.
  destruct (previous_messages_chronological Scripted.event0
              Scripted.world_table) as (_ & Hget & _ & _ & _ & Hsorted & _).
  split; [|exact Hsorted].
  rewrite Hget. vm_compute. reflexivity.
Defined.

(** Witness of X15: a write list that names [a.ts] twice, on a mapping
    that already holds [README.md]. *)
Lemma createOrUpdateFiles_merges_witness :
  ∃ w',
    createOrUpdateFiles_handler Scripted.svc_idle "sbx" Scripted.entries_twice
      (Some InngestStep) Scripted.world_keep = (Returned tt, w') ∧
    files (data (state w')) !! "README.md" = Some "keep" ∧
    files (data (state w')) !! "a.ts" = Some "second" ∧
    files (data (state w')) !! "b.ts" = Some "other".
Proof.
  destruct (createOrUpdateFiles_handler Scripted.svc_idle "sbx"
              Scripted.entries_twice (Some InngestStep) Scripted.world_keep)
    as [r w'] eqn:Hrun.
  assert (r = Returned tt) as Hr.
  { vm_compute in Hrun. by injection Hrun as <- _. }
  subst r. exists w'. split; [reflexivity|].
  destruct (createOrUpdateFiles_merges _ _ _ _ _ _ _ Hrun)
    as (Hother & _ & _ & Hlast & _).
  split_and!.
  - rewrite Hother; [reflexivity|].
    compute_done.
  - apply (Hlast eq_refl eq_refl
             [mkFileEntry "a.ts" "first"; mkFileEntry "b.ts" "other"]
             (mkFileEntry "a.ts" "second") []);
      [reflexivity|discriminate|].
    compute_done.
  - apply (Hlast eq_refl eq_refl [mkFileEntry "a.ts" "first"]
             (mkFileEntry "b.ts" "other") [mkFileEntry "a.ts" "second"]);
      [reflexivity|discriminate|].
    compute_done.
Defined.

(** Witness of C7: a sandbox whose every command fails. *)
Lemma terminal_handler_never_throws_witness :
  ∃ w',
    terminal_handler Scripted.svc_broken_shell "sbx" "npm run lint"
      (Some InngestStep) Scripted.world0
    = (Returned (Some "Command failed: CommandExitError: exit status 1"), w').
Proof.
  destruct (terminal_handler_never_throws Scripted.svc_broken_shell "sbx"
              "npm run lint" (Some InngestStep) Scripted.world0)
    as (v & w' & Hrun & Hstep & _).
  destruct (Hstep eq_refl) as (_ & _ & Hfail).
  exists w'. rewrite Hrun. f_equal. f_equal.
  apply (Hfail (Scripted.mkRemote 0 ∅)
           (Exn "CommandExitError: exit status 1") (Scripted.mkRemote 0 ∅));
    reflexivity.
Defined.

(** Witness of C8 on the run that writes a file and closes. *)
Lemma return_value_mirrors_fragment_witness :
  codeAgentFunction Scripted.svc_done 15 Scripted.event0 Scripted.world0
  = (Returned Scripted.rv_done, Scripted.after_done) ∧
  rv_title Scripted.rv_done = "Fragment" ∧
  ∃ row frag,
    db Scripted.after_done = [row] ∧ fragment row = Some frag ∧
    rv_url Scripted.rv_done = sandboxUrl frag ∧
    rv_files Scripted.rv_done = frag_files frag.
Proof.
  assert (codeAgentFunction Scripted.svc_done 15 Scripted.event0
            Scripted.world0
          = (Returned Scripted.rv_done, Scripted.after_done)) as Hrun
    by (vm_compute; reflexivity).
  split; [exact Hrun|].
  destruct (return_value_mirrors_fragment _ _ _ _ _ _ Hrun)
    as (Hrv & row & Hdb & Hsome & Hmirror).
  split; [by rewrite Hrv|].
  destruct Hsome as [frag Hfrag]; [by vm_compute|].
  exists row, frag. destruct (Hmirror frag Hfrag) as [Hurl Hfiles].
  split_and!; [exact Hdb|exact Hfrag|exact Hurl|exact Hfiles].
Defined.

(** Witness of C10 on the run that writes a file and closes. *)
Lemma sandbox_url_has_backslash_witness :
  codeAgentFunction Scripted.svc_done 15 Scripted.event0 Scripted.world0
  = (Returned Scripted.rv_done, Scripted.after_done) ∧
  rv_url Scripted.rv_done
  = "https:" ++ String Js.backslash "3000-sbx.e2b.app" ∧
  Js.startsWith (rv_url Scripted.rv_done) "https://" = false.
Proof.
  assert (codeAgentFunction Scripted.svc_done 15 Scripted.event0
            Scripted.world0
          = (Returned Scripted.rv_done, Scripted.after_done)) as Hrun
    by (vm_compute; reflexivity).
  split; [exact Hrun|].
  destruct (sandbox_url_has_backslash _ _ _ _ _ _ Hrun)
    as (Hurl & _ & Hnot & _).
  split; [exact Hurl|exact Hnot].
Defined.

(* ================================================================== *)
(** * What a run of the network preserves                              *)
(* ================================================================== *)

Section NetworkFrame.
Context {Ext : Type} (svc : Services Ext).
Variable R : World Ext → World Ext → Prop.
Hypothesis R_refl : ∀ w, R w w.
Hypothesis R_trans : ∀ w1 w2 w3, R w1 w2 → R w2 w3 → R w1 w3.
Hypothesis R_ext : ∀ w x, R w (mkWorld (state w) x (db w)).
Hypothesis R_assign : ∀ p c, keeps R (assign_current_file (Ext:=Ext) p c).
Hypothesis R_onResponse : ∀ result, keeps R (onResponse (Ext:=Ext) result).

(** Assigning to the state the mapping it holds changes nothing. *)
Lemma set_files_current (w : World Ext) :
  set_files (files (data (state w))) w = (Returned tt, w).
Proof. by destruct w as [[[s f] m] x d]. Qed.

(** The world a call of [createOrUpdateFiles] ends in is the one its loop
    ends in: the closing assignment puts back the mapping that is there. *)
Lemma createOrUpdateFiles_world sandboxId entries (w : World Ext) :
  (createOrUpdateFiles_handler svc sandboxId entries (Some InngestStep) w).2 =
  ((call (getSandbox svc sandboxId) ;;; for_of entries (write_one svc)) w).2.
Proof.
  unfold createOrUpdateFiles_handler, opt_step_run, step_run, get_data.
  unfold bind, call.
  destruct (getSandbox svc sandboxId (ext w)) as [[[]|e] x]; simpl; [|done].
  destruct (for_of entries (write_one svc) _) as [[[]|e|] w2]; simpl;
    [|done|done].
  by destruct w2 as [[[s f] m] x2 d].
Qed.

Lemma keeps_terminal_handler sandboxId command step :
  keeps R (terminal_handler svc sandboxId command step).
Proof.
  unfold terminal_handler. apply keeps_opt_step_run; [done|done|].
  apply keeps_try_catch; [done| |].
  - apply keeps_bind; [done|by apply keeps_call|]. intros _.
    apply keeps_bind; [done|by apply keeps_call|]. intros out.
    by apply keeps_ret.
  - intros e. by apply keeps_ret.
Qed.

Lemma keeps_readFiles_handler sandboxId paths step :
  keeps R (readFiles_handler svc sandboxId paths step).
Proof.
  unfold readFiles_handler. apply keeps_opt_step_run; [done|done|].
  apply keeps_bind; [done|by apply keeps_call|]. intros _.
  apply keeps_promise_all_map; [done|done|]. intros file.
  apply keeps_bind; [done|by apply keeps_call|]. intros c.
  by apply keeps_ret.
Qed.

Lemma keeps_createOrUpdateFiles_handler sandboxId entries step :
  keeps R (createOrUpdateFiles_handler svc sandboxId entries step).
Proof.
  intros w. destruct step as [[]|]; [|apply R_refl].
  rewrite createOrUpdateFiles_world.
  revert w. apply keeps_bind; [done|by apply keeps_call|]. intros _.
  apply keeps_for_of; [done|done|]. intros file. unfold write_one.
  apply keeps_bind; [done|by apply keeps_call|]. intros _. apply R_assign.
Qed.

Lemma keeps_invoke_tool sandboxId step tc :
  keeps R (invoke_tool svc sandboxId step tc).
Proof.
  destruct tc; simpl.
  - apply keeps_bind; [done|apply keeps_terminal_handler|].
    intros _. by apply keeps_ret.
  - apply keeps_createOrUpdateFiles_handler.
  - apply keeps_bind; [done|apply keeps_readFiles_handler|].
    intros _. by apply keeps_ret.
Qed.

Lemma keeps_agent_run a sandboxId input step :
  keeps R (agent_run svc a sandboxId input step).
Proof.
  destruct a. unfold agent_run, codeAgent_run.
  apply keeps_bind; [done|by apply keeps_get_state|]. intros s.
  apply keeps_bind; [done|by apply keeps_call|]. intros result.
  apply keeps_bind; [done|apply R_onResponse|]. intros result'.
  apply keeps_for_of; [done|done|]. intros tc. apply keeps_invoke_tool.
Qed.

Lemma keeps_router : keeps R (router (Ext:=Ext)).
Proof. intros w. rewrite router_spec. apply R_refl. Qed.

Lemma keeps_network_loop cap sandboxId input step fuel stack counter :
  keeps R (network_loop svc cap sandboxId input step fuel stack counter).
Proof.
  revert stack counter.
  induction fuel as [|fuel IH]; intros stack counter;
    destruct stack as [|a stack']; simpl; try (intros w; apply R_refl);
    destruct (_ || _); try (intros w; apply R_refl).
  apply keeps_bind; [done|apply keeps_agent_run|]. intros _.
  apply keeps_bind; [done|apply keeps_router|]. intros next. apply IH.
Qed.

Lemma keeps_network_run cap sandboxId input step fuel :
  keeps R (network_run svc cap sandboxId input step fuel).
Proof.
  unfold network_run. apply keeps_bind; [done|apply keeps_router|].
  intros [a|]; [apply keeps_network_loop|by apply keeps_ret].
Qed.

End NetworkFrame.

(* ================================================================== *)
(** * Substrings                                                       *)
(* ================================================================== *)

Lemma prefix_spec (p s : string) :
  String.prefix p s = true ↔ ∃ post, s = p ++ post.
Proof.
  revert s. induction p as [|a p IH]; intros [|b s]; simpl.
  - split; [intros _; by exists ""|done].
  - split; [intros _; by exists (String b s)|done].
  - split; [done|]. by intros [post [=]].
  - destruct (Ascii.ascii_dec a b) as [->|Hne].
    + rewrite IH. split; intros [post Hpost]; exists post.
      * by rewrite Hpost.
      * change (String b s = String b (p ++ post)) in Hpost. congruence.
    + split; [done|]. intros [post [= ? _]]. done.
Qed.

Lemma includes_spec (hay needle : string) :
  Js.includes hay needle = true ↔ ∃ pre post, hay = pre ++ needle ++ post.
Proof.
  induction hay as [|c rest IH]; cbn [Js.includes]; rewrite orb_true_iff.
  - rewrite prefix_spec. split.
    + intros [[post Hpost]|[=]]. by exists "", post.
    + intros (pre & post & Heq). left.
      destruct pre; [|done]. by exists post.
  - rewrite prefix_spec, IH. split.
    + intros [[post Hpost]|(pre & post & Heq)].
      * by exists "", post.
      * exists (String c pre), post. by rewrite Heq.
    + intros (pre & post & Heq). destruct pre as [|c' pre].
      * left. by exists post.
      * right. change (String c rest = String c' (pre ++ needle ++ post)) in Heq.
        injection Heq as _ Heq. by exists pre, post.
Qed.

(* ================================================================== *)
(** * The three relations a run of the network keeps                   *)
(* ================================================================== *)

Section KeptRelations.
Context {Ext : Type} (svc : Services Ext).

Lemma onResponse_state result (w : World Ext) :
  let w' := (onResponse result w).2 in
  files (data (state w')) = files (data (state w)) ∧
  messages (state w') = messages (state w) ∧
  db w' = db w ∧ ext w' = ext w.
Proof.
  unfold onResponse. destruct (last_text result) as [text|]; [|done].
  by destruct (Js.includes text "<task_summary>").
Qed.

Lemma summary_kept_or_tagged_refl (w : World Ext) :
  summary_kept_or_tagged w w.
Proof. by left. Qed.

Lemma summary_kept_or_tagged_trans (w1 w2 w3 : World Ext) :
  summary_kept_or_tagged w1 w2 → summary_kept_or_tagged w2 w3 →
  summary_kept_or_tagged w1 w3.
Proof.
  unfold summary_kept_or_tagged. intros [H12|H12] [H23|H23]; auto.
  - left. congruence.
  - right. by rewrite H23.
Qed.

Lemma network_run_summary cap sandboxId input step fuel :
  keeps summary_kept_or_tagged
    (network_run svc cap sandboxId input step fuel).
Proof.
  apply keeps_network_run.
  - apply summary_kept_or_tagged_refl.
  - apply summary_kept_or_tagged_trans.
  - intros w x. by left.
  - intros p c w. by left.
  - intros result w. unfold summary_kept_or_tagged.
    destruct (onResponse_summary result w) as [H|[H _]]; auto.
Qed.

Lemma network_run_files_grow cap sandboxId input step fuel :
  keeps files_grow (network_run svc cap sandboxId input step fuel).
Proof.
  apply keeps_network_run; unfold files_grow.
  - done.
  - intros w1 w2 w3 H12 H23. by etrans.
  - done.
  - intros p c w. simpl. apply assign_dom.
  - intros result w. by destruct (onResponse_state result w) as (-> & _).
Qed.

Lemma network_run_table_and_history cap sandboxId input step fuel :
  keeps same_table_and_history
    (network_run svc cap sandboxId input step fuel).
Proof.
  apply keeps_network_run; unfold same_table_and_history.
  - done.
  - intros w1 w2 w3 [? ?] [? ?]. split; congruence.
  - done.
  - done.
  - intros result w.
    by destruct (onResponse_state result w) as (_ & -> & -> & _).
Qed.

(** ** More about a run of the workflow *)

Lemma get_sandbox_url_reached sandboxId (w : World Ext) url w' :
  get_sandbox_url svc sandboxId w = (Returned url, w') →
  getSandbox svc sandboxId (ext w) = (Resolved tt, ext w').
Proof.
  unfold get_sandbox_url, step_run. intros H.
  apply bind_Returned in H as ([] & w1 & Hc & H).
  apply call_Returned in Hc as (x & Hg & ->).
  unfold bind, get_ext, ret in H. simpl in H. by injection H as _ <-.
Qed.

(** A run that returns: the sandbox was created, the network ran on a
    fresh state seeded with the previous messages and left the final
    state, and the sandbox was reached once more for its URL. *)
Lemma codeAgentFunction_Returned_network fuel event (w : World Ext) rv w' :
  codeAgentFunction svc fuel event w = (Returned rv, w') →
  ∃ sandboxId x1 n w4 x7,
    sandbox_create svc "codeassist-nextjs-test-2" (ext w)
    = (Resolved sandboxId, x1) ∧
    network_run svc maxIter sandboxId (ev_value event) (Some InngestStep) fuel
      (mkWorld
         (createState (mkAgentState "" ∅)
            (reverse
               (format_message <$>
                  select_rows (ev_projectId event) 10 (db w))))
         x1 (db w))
    = (Returned n, w4) ∧
    state w' = state w4 ∧
    getSandbox svc sandboxId x7 = (Resolved tt, ext w').
Proof.
  unfold codeAgentFunction, step_run. intros H.
  apply bind_Returned in H as (sandboxId & w1 & H1 & H).
  apply call_Returned in H1 as (x1 & Hcreate & ->).
  apply bind_Returned in H as (prev & w2 & H2 & H).
  rewrite get_previous_messages_spec in H2. injection H2 as <- <-.
  apply bind_Returned in H as ([] & w3 & H3 & H).
  injection H3 as <-.
  apply bind_Returned in H as (n & w4 & H4 & H).
  apply bind_Returned in H as (d & w5 & H5 & H).
  unfold get_data, bind, get_state, ret in H5. injection H5 as <- <-.
  apply bind_Returned in H as (titleOut & w6 & H6 & H).
  apply call_Returned in H6 as (x6 & _ & ->).
  apply bind_Returned in H as (respOut & w7 & H7 & H).
  apply call_Returned in H7 as (x7 & _ & ->).
  apply bind_Returned in H as (url & w8 & H8 & H).
  pose proof (get_sandbox_url_reached _ _ _ _ H8) as Hreach.
  apply get_sandbox_url_Returned in H8 as (_ & Hs8 & _).
  apply bind_Returned in H as (row & w9 & H9 & H).
  rewrite save_result_spec in H9. injection H9 as <- <-.
  unfold ret in H. injection H as <- <-.
  exists sandboxId, x1, n, w4, x7. simpl in *. split_and!; try done.
Qed.

Lemma stores_only_on_return_bind {A B} (m : M (Ext:=Ext) A) (k : A → M B) :
  keeps same_db m → (∀ a, stores_only_on_return (k a)) →
  stores_only_on_return (bind m k).
Proof.
  intros Hm Hk w. unfold bind. specialize (Hm w). unfold same_db in Hm.
  destruct (m w) as [[a|e|] w1]; simpl in *; try done.
  intros Hf. by rewrite (Hk a w1 Hf).
Qed.

Lemma codeAgentFunction_stores_only_on_return fuel event :
  stores_only_on_return (codeAgentFunction svc fuel event).
Proof.
  unfold codeAgentFunction, step_run.
  apply stores_only_on_return_bind; [apply (keeps_call _ same_db_ext)|].
  intros sandboxId. apply stores_only_on_return_bind.
  { intros w. by rewrite get_previous_messages_spec. }
  intros prev. apply stores_only_on_return_bind; [apply keeps_db_put_state|].
  intros _. apply stores_only_on_return_bind; [apply keeps_db_network_run|].
  intros n. apply stores_only_on_return_bind.
  { unfold get_data. keeps_db_tac. }
  intros d. apply stores_only_on_return_bind; [apply (keeps_call _ same_db_ext)|].
  intros titleOut.
  apply stores_only_on_return_bind; [apply (keeps_call _ same_db_ext)|].
  intros respOut. apply stores_only_on_return_bind.
  { unfold get_sandbox_url, step_run. keeps_db_tac. }
  intros url w. unfold bind. by rewrite save_result_spec.
Qed.

End KeptRelations.

(* ================================================================== *)
(** * More about the tools                                             *)
(* ================================================================== *)

(** For a path of the write list other than [__proto__], the old mapping
    does not matter. *)
Lemma write_entries_lookup_written (l : list FileEntry) (p : string) :
  p ≠ "__proto__" →
  p ∈ path <$> l →
  ∃ c, ∀ o : gmap string string, write_entries o l !! p = Some c.
Proof.
  intros Hkey.
  induction l as [|f l IH] using rev_ind; [by intros ?%elem_of_nil|].
  rewrite fmap_app, elem_of_app. intros Hin.
  destruct (decide (path f = p)) as [<-|Hne].
  - exists (file_content f). intros o.
    rewrite write_entries_app. simpl. by apply assign_lookup_eq.
  - destruct Hin as [Hin|Hin]; [|by apply list_elem_of_singleton in Hin].
    destruct (IH Hin) as [c Hc]. exists c. intros o.
    rewrite write_entries_app. simpl. by rewrite assign_lookup_ne.
Qed.

Lemma write_entries_idemp (o : gmap string string) (l : list FileEntry) :
  write_entries (write_entries o l) l = write_entries o l.
Proof.
  apply map_eq. intros p.
  destruct (decide (p = "__proto__")) as [->|Hkey].
  { by rewrite !write_entries_lookup_proto. }
  destruct (decide (p ∈ path <$> l)) as [Hin|Hout].
  - destruct (write_entries_lookup_written l p Hkey Hin) as [c Hc].
    by rewrite !Hc.
  - by rewrite !write_entries_lookup_other.
Qed.

Section MoreToolFacts.
Context {Ext : Type} (svc : Services Ext).

(** The reads of [readFiles]: one entry per requested path, in order. *)
Lemma read_all_paths (paths : list string) (w : World Ext) res w' :
  promise_all_map paths
    (λ file, c <- call (files_read svc file) ;; ret (mkFileEntry file c)) w
  = (Returned res, w') →
  path <$> res = paths.
Proof.
  revert w res w'. induction paths as [|p paths IH]; intros w res w'; simpl.
  - by intros [= <- _].
  - intros H. apply bind_Returned in H as (y & w1 & Hy & H).
    apply bind_Returned in Hy as (c & w0 & _ & Hy).
    injection Hy as <- _.
    apply bind_Returned in H as (ys & w2 & Hys & H).
    injection H as <- _. simpl. f_equal. exact (IH _ _ _ Hys).
Qed.

Lemma same_state_and_table_refl (w : World Ext) : same_state_and_table w w.
Proof. done. Qed.

Lemma same_state_and_table_trans (w1 w2 w3 : World Ext) :
  same_state_and_table w1 w2 → same_state_and_table w2 w3 →
  same_state_and_table w1 w3.
Proof. intros [? ?] [? ?]. split; congruence. Qed.

Lemma same_state_and_table_ext (w : World Ext) x :
  same_state_and_table w (mkWorld (state w) x (db w)).
Proof. done. Qed.

End MoreToolFacts.

(* ================================================================== *)
(** * More about the fetched rows                                      *)
(* ================================================================== *)

(** With room for all of them, every row of the project is fetched. *)
Lemma select_rows_all pid (n : nat) rows :
  (length (filter (λ r, projectId r = pid) rows) ≤ n)%nat →
  select_rows pid n rows ≡ₚ filter (λ r, projectId r = pid) rows.
Proof.
  intros Hlen. unfold select_rows.
  rewrite take_ge; [apply merge_sort_Permutation|].
  by rewrite merge_sort_Permutation.
Qed.

(** The rows left out are the tail of the ordered rows: none of them is
    newer than a fetched one. *)
Lemma select_rows_dropped pid (n : nat) rows :
  let dropped :=
    drop n (merge_sort newer_first (filter (λ r, projectId r = pid) rows)) in
  (select_rows pid n rows ++ dropped)%list
    ≡ₚ filter (λ r, projectId r = pid) rows ∧
  ∀ a b, a ∈ select_rows pid n rows → b ∈ dropped →
         (createdAt b ≤ createdAt a)%Z.
Proof.
  intros dropped. unfold select_rows. subst dropped.
  set (sorted := merge_sort newer_first _).
  split.
  - rewrite take_drop. apply merge_sort_Permutation.
  - assert (StronglySorted newer_first sorted) as Hs
      by (apply StronglySorted_merge_sort; apply _).
    rewrite <- (take_drop n sorted) in Hs.
    apply StronglySorted_app in Hs as (Hcross & _ & _).
    intros a b Ha Hb. by apply (Hcross a b).
Qed.

(** In rows ordered newest first, a row strictly newer than every other
    one comes first. *)
Lemma newest_is_head (l : list MessageRow) (x : MessageRow) :
  StronglySorted newer_first l → x ∈ l →
  (∀ r, r ∈ l → r = x ∨ (createdAt r < createdAt x)%Z) →
  ∃ tl, l = x :: tl.
Proof.
  intros Hs Hx Hnew. destruct l as [|h tl]; [by apply elem_of_nil in Hx|].
  destruct (Hnew h) as [->|Hlt]; [left|by exists tl|].
  apply elem_of_cons in Hx as [->|Hx]; [by exists tl|].
  apply StronglySorted_cons in Hs as [Hall _].
  rewrite Forall_forall in Hall. specialize (Hall x Hx).
  unfold newer_first in Hall. lia.
Qed.

(** A row of the project appended with a time stamp past all the others of
    the project is the first row fetched. *)
Lemma select_rows_newest pid (n : nat) rows x :
  projectId x = pid →
  (∀ r, r ∈ rows → projectId r = pid → (createdAt r < createdAt x)%Z) →
  ∃ tl, select_rows pid (S n) (rows ++ [x]) = x :: tl.
Proof.
  intros Hpid Hnew. unfold select_rows.
  set (sorted := merge_sort newer_first _).
  assert (∃ tl, sorted = x :: tl) as [tl ->]; [|by eexists].
  apply newest_is_head.
  - apply StronglySorted_merge_sort; apply _.
  - unfold sorted. rewrite merge_sort_Permutation, filter_app.
    apply elem_of_app. right. rewrite filter_cons_True by done. by left.
  - intros r. unfold sorted.
    rewrite merge_sort_Permutation, filter_app, elem_of_app.
    intros [Hr|Hr].
    + apply list_elem_of_filter in Hr as [Hp Hr]. right. by apply Hnew.
    + rewrite filter_cons_True in Hr by done. simpl in Hr.
      apply list_elem_of_singleton in Hr. by left.
Qed.

(* ================================================================== *)
(** * Further properties of the tools and the network                  *)
(* ================================================================== *)

Section FurtherProperties.
Context {Ext : Type} (svc : Services Ext).

(** X1: when [readFiles] returns a list, the list has one entry per
    requested path, in the order of the request; handed no step tools it
    returns [undefined] and does nothing; handed them it never returns
    [undefined]. *)
Theorem readFiles_returns_requested_paths sandboxId paths step
  (w : World Ext) r w' :
  readFiles_handler svc sandboxId paths step w = (r, w') →
  (∀ res, r = Returned (Some res) → path <$> res = paths) ∧
  (step = None → r = Returned None ∧ w' = w) ∧
  (step = Some InngestStep → r ≠ Returned None).
Proof.
  unfold readFiles_handler, opt_step_run, step_run.
  destruct step as [[]|]; intros Hrun.
  - split_and!; [|done|].
    + intros res ->. apply bind_Returned in Hrun as (res' & w1 & Hbody & H).
      injection H as <- _.
      apply bind_Returned in Hbody as ([] & w0 & _ & Hreads).
      exact (read_all_paths svc _ _ _ _ Hreads).
    + intros _ ->. apply bind_Returned in Hrun as (res' & w1 & _ & H).
      by injection H.
  - injection Hrun as <- <-. by split_and!.
Qed.

(** X2: a tool call other than [createOrUpdateFiles], that is a call of the
    terminal or of [readFiles], leaves the agent state, the conversation
    and the message table as they were, however it ends. *)
Theorem read_only_tools_keep_state sandboxId step tc (w : World Ext) :
  (∀ entries, tc ≠ CallCreateOrUpdateFiles entries) →
  state (invoke_tool svc sandboxId step tc w).2 = state w ∧
  db (invoke_tool svc sandboxId step tc w).2 = db w.
Proof.
  intros Hro.
  assert (keeps same_state_and_table (invoke_tool svc sandboxId step tc))
    as Hkeeps; [|exact (Hkeeps w)].
  destruct tc as [command|entries|paths]; simpl.
  - apply keeps_bind; [apply same_state_and_table_trans| |].
    + apply (keeps_terminal_handler svc _ same_state_and_table_refl
               same_state_and_table_trans same_state_and_table_ext).
    + intros _. apply keeps_ret, same_state_and_table_refl.
  - by destruct (Hro entries).
  - apply keeps_bind; [apply same_state_and_table_trans| |].
    + apply (keeps_readFiles_handler svc _ same_state_and_table_refl
               same_state_and_table_trans same_state_and_table_ext).
    + intros _. apply keeps_ret, same_state_and_table_refl.
Qed.

(** X3: the file tools do not catch what the sandbox throws. When the
    sandbox cannot be reached, [createOrUpdateFiles] and [readFiles] throw
    the very value [getSandbox] threw and leave state and table alone,
    where the terminal returns a text. *)
Theorem file_tools_propagate_unreachable sandboxId entries paths command
  (w : World Ext) e x :
  getSandbox svc sandboxId (ext w) = (Rejected e, x) →
  let w' := mkWorld (state w) x (db w) in
  createOrUpdateFiles_handler svc sandboxId entries (Some InngestStep) w
  = (Thrown e, w') ∧
  readFiles_handler svc sandboxId paths (Some InngestStep) w
  = (Thrown e, w') ∧
  terminal_handler svc sandboxId command (Some InngestStep) w
  = (Returned (Some ("Command failed: " ++ exn_text e)), w').
Proof.
  intros Hg w'. split_and!.
  - unfold createOrUpdateFiles_handler, opt_step_run, step_run, bind, call.
    by rewrite Hg.
  - unfold readFiles_handler, opt_step_run, step_run, bind, call.
    by rewrite Hg.
  - rewrite terminal_handler_spec. by rewrite Hg.
Qed.

(** X4: writing the same list of files a second time changes nothing in
    the file mapping, when both calls go through. *)
Theorem createOrUpdateFiles_twice sandboxId entries (w : World Ext) w1 w2 :
  createOrUpdateFiles_handler svc sandboxId entries (Some InngestStep) w
  = (Returned tt, w1) →
  createOrUpdateFiles_handler svc sandboxId entries (Some InngestStep) w1
  = (Returned tt, w2) →
  files (data (state w2)) = files (data (state w1)).
Proof.
  intros H1 H2.
  apply createOrUpdateFiles_spec in H1
    as (done1 & _ & Hf1 & _ & _ & _ & Hok1 & _).
  apply createOrUpdateFiles_spec in H2
    as (done2 & _ & Hf2 & _ & _ & _ & Hok2 & _).
  rewrite (Hok1 eq_refl eq_refl) in Hf1.
  rewrite (Hok2 eq_refl eq_refl) in Hf2.
  rewrite Hf2, Hf1. apply write_entries_idemp.
Qed.

(** X6: over a run of the network, however it ends, no path leaves the
    file mapping. *)
Theorem network_run_never_drops_files cap sandboxId input step fuel
  (w : World Ext) :
  dom (files (data (state w))) ⊆
  dom (files (data
         (state (network_run svc cap sandboxId input step fuel w).2))).
Proof. apply (network_run_files_grow svc cap sandboxId input step fuel w). Qed.

(** A run of the network, however it ends, neither writes to the message
    table nor changes the conversation the state was seeded with. *)
Theorem network_run_keeps_table_and_history cap sandboxId input step fuel
  (w : World Ext) :
  db (network_run svc cap sandboxId input step fuel w).2 = db w ∧
  messages (state (network_run svc cap sandboxId input step fuel w).2)
  = messages (state w).
Proof.
  apply (network_run_table_and_history svc cap sandboxId input step fuel w).
Qed.

(** X10: started with an empty summary and a cap of at least one, a run of
    the network that returns has given the agent at least one turn. *)
Theorem network_run_takes_a_turn (cap fuel : nat) sandboxId input step
  (w : World Ext) n w' :
  summary (data (state w)) = "" →
  (1 ≤ cap)%nat → (cap ≤ fuel)%nat →
  network_run svc cap sandboxId input step fuel w = (Returned n, w') →
  (1 ≤ n ≤ cap)%nat.
Proof.
  intros Hs Hcap Hfuel Hrun.
  unfold network_run, bind in Hrun. rewrite router_spec in Hrun.
  apply truthy_false in Hs. rewrite Hs in Hrun.
  destruct fuel as [|fuel]; [lia|].
  assert ((cap =? 0)%nat || (0 <? cap)%nat = true) as Hguard.
  { apply orb_true_iff. right. apply Nat.ltb_lt. lia. }
  destruct (agent_run svc codeAgent sandboxId input step w)
    as [[[]|e|] w1] eqn:Hturn.
  - rewrite (network_loop_turn svc cap fuel 0 _ _ _ _ w w1 Hguard Hturn)
      in Hrun.
    apply network_loop_bounded in Hrun as [_ Hn]; try lia.
    + destruct (Hn n eq_refl) as [? _]. lia.
    + destruct (Js.truthy (summary (data (state w1)))); simpl; lia.
    + destruct (Js.truthy (summary (data (state w1)))) eqn:Ht; [|done].
      intros _. by apply truthy_true.
  - cbn [network_loop] in Hrun. rewrite Hguard in Hrun.
    unfold bind at 1 in Hrun. by rewrite Hturn in Hrun.
  - cbn [network_loop] in Hrun. rewrite Hguard in Hrun.
    unfold bind at 1 in Hrun. by rewrite Hturn in Hrun.
Qed.

End FurtherProperties.

(* ================================================================== *)
(** * Further properties of the workflows                              *)
(* ================================================================== *)

Section StepEquations.
Context {Ext : Type}.

Lemma bind_call_eq {A B} (f : Ext → settled A * Ext)
  (k : A → M (Ext:=Ext) B) (w : World Ext) :
  bind (call f) k w =
  match f (ext w) with
  | (Resolved a, x) => k a (mkWorld (state w) x (db w))
  | (Rejected e, x) => (Thrown e, mkWorld (state w) x (db w))
  end.
Proof. unfold bind, call. by destruct (f (ext w)) as [[a|e] x]. Qed.

Lemma bind_previous_messages_eq {B} event (k : list Message → M (Ext:=Ext) B)
  (w : World Ext) :
  bind (get_previous_messages event) k w =
  k (reverse (format_message <$> select_rows (ev_projectId event) 10 (db w)))
    w.
Proof. unfold bind. by rewrite get_previous_messages_spec. Qed.

End StepEquations.

Section FurtherWorkflowProperties.
Context {Ext : Type} (svc : Services Ext).

(** X5: the summary a run returns is empty or contains the completion tag
    [<task_summary>]; when the row it stored is a RESULT, the summary
    contains the tag. *)
Theorem result_needs_completion_tag fuel event (w : World Ext) rv w' :
  codeAgentFunction svc fuel event w = (Returned rv, w') →
  (rv_summary rv = "" ∨
   ∃ pre post, rv_summary rv = pre ++ "<task_summary>" ++ post) ∧
  ∀ row, last (db w') = Some row → type row = RESULT →
         ∃ pre post, rv_summary rv = pre ++ "<task_summary>" ++ post.
Proof.
  intros Hrun.
  pose proof Hrun as Hnet.
  apply codeAgentFunction_Returned_network in Hnet
    as (sandboxId & x1 & n & w4 & x7 & _ & Hnet & Hstate & _).
  apply codeAgentFunction_Returned in Hrun
    as (titleOut & respOut & -> & Hdb).
  simpl.
  assert (summary (data (state w')) = "" ∨
          ∃ pre post,
            summary (data (state w')) = pre ++ "<task_summary>" ++ post)
    as Htag.
  { match type of Hnet with
    | network_run _ _ _ _ _ _ ?w3 = _ =>
        pose proof (network_run_summary svc maxIter sandboxId
                      (ev_value event) (Some InngestStep) fuel w3) as Hkept
    end.
    rewrite Hnet in Hkept. rewrite Hstate.
    destruct Hkept as [Hsame|Hinc]; [by left|].
    right. by apply includes_spec. }
  split; [exact Htag|].
  intros row. rewrite Hdb, last_snoc. intros [= <-].
  destruct (isError (data (state w'))) eqn:Herr; [done|]. intros _.
  apply isError_false in Herr as [Hne _]. by destruct Htag.
Qed.

(** X8: a run of the workflow that does not return, because a step threw,
    leaves the message table as it was: not even the error message is
    stored. *)
Theorem failed_run_stores_nothing fuel event (w : World Ext) r w' :
  codeAgentFunction svc fuel event w = (r, w') →
  (∀ rv, r ≠ Returned rv) →
  db w' = db w.
Proof.
  intros Hrun Hnot.
  pose proof (codeAgentFunction_stores_only_on_return svc fuel event w) as H.
  rewrite Hrun in H. apply H.
  destruct r as [rv| |]; [by destruct (Hnot rv)|done|done].
Qed.

(** X9: the URL is asked of the sandbox before the result is saved, also
    for a failed run; so with a sandbox that cannot be reached no run
    returns and no row is stored. *)
Theorem unreachable_sandbox_never_returns fuel event (w : World Ext) :
  (∀ id x, ∃ e x', getSandbox svc id x = (Rejected e, x')) →
  (∀ rv, (codeAgentFunction svc fuel event w).1 ≠ Returned rv) ∧
  db (codeAgentFunction svc fuel event w).2 = db w.
Proof.
  intros Hdown.
  assert (∀ rv, (codeAgentFunction svc fuel event w).1 ≠ Returned rv) as Hnot.
  { intros rv Hret.
    destruct (codeAgentFunction svc fuel event w) as [r w'] eqn:Hrun.
    simpl in Hret. subst r.
    apply codeAgentFunction_Returned_network in Hrun
      as (sandboxId & x1 & n & w4 & x7 & _ & _ & _ & Hreach).
    destruct (Hdown sandboxId x7) as (e & x' & Hrej). congruence. }
  split; [exact Hnot|].
  apply (codeAgentFunction_stores_only_on_return svc fuel event w).
  destruct (codeAgentFunction svc fuel event w).1 as [rv| |] eqn:Hr;
    [by destruct (Hnot rv)|done|done].
Qed.

(** X11: when the project has at most ten messages, the context holds
    every one of them exactly once: it is a rearrangement of all the rows
    of the project, formatted. *)
Theorem previous_messages_complete event (w : World Ext) :
  (length (filter (λ r, projectId r = ev_projectId event) (db w)) ≤ 10)%nat →
  ∃ msgs,
    get_previous_messages event w = (Returned msgs, w) ∧
    msgs ≡ₚ
      format_message <$> filter (λ r, projectId r = ev_projectId event) (db w).
Proof.
  intros Hlen. eexists. split; [apply get_previous_messages_spec|].
  rewrite reverse_Permutation. by rewrite select_rows_all.
Qed.

(** X13: what a run saves is what the next run of the project reads last.
    If the clock at the end of the run is past the time stamps of the
    project's rows, the previous messages loaded after the run end with an
    assistant message whose text is the one the run stored; for a failed
    run that is the fixed error text. *)
Theorem saved_message_is_latest_context fuel event (w : World Ext) rv w' :
  codeAgentFunction svc fuel event w = (Returned rv, w') →
  (∀ r, r ∈ db w → projectId r = ev_projectId event →
        (createdAt r < now svc (ext w'))%Z) →
  ∃ earlier row,
    last (db w') = Some row ∧
    get_previous_messages event w'
    = (Returned (earlier ++ [mkMessage "text" assistant (content row)])%list,
       w') ∧
    (length earlier ≤ 9)%nat ∧
    (isError (data (state w')) = true →
     content row = "Something went wrong. Please try again.").
Proof.
  intros Hrun Hclock.
  apply codeAgentFunction_Returned in Hrun
    as (titleOut & respOut & _ & Hdb).
  match type of Hdb with _ = (_ ++ [?r])%list => set (row := r) in * end.
  assert (projectId row = ev_projectId event ∧ role row = ASSISTANT ∧
          createdAt row = now svc (ext w')) as (Hpid & Hrole & Htime).
  { subst row. by destruct (isError _). }
  destruct (select_rows_newest (ev_projectId event) 9 (db w) row Hpid)
    as [tl Htl].
  { intros r Hr Hp. rewrite Htime. by apply Hclock. }
  exists (reverse (format_message <$> tl)), row. split_and!.
  - by rewrite Hdb, last_snoc.
  - rewrite get_previous_messages_spec, Hdb, Htl.
    rewrite fmap_cons, reverse_cons. unfold format_message at 2.
    by rewrite Hrole.
  - rewrite length_reverse, length_fmap.
    pose proof (select_rows_length (ev_projectId event) 10 (db w ++ [row]))
      as Hlen.
    rewrite Htl in Hlen. simpl in Hlen. lia.
  - intros Herr. subst row. by rewrite Herr.
Qed.

(** A run starts from a fresh agent state. Whatever summary, file
    mapping and conversation the world held before, the run ends the same
    way, with the same services and the same table; and when it returns,
    with the same agent state. *)
Theorem run_ignores_previous_state fuel event (s1 s2 : State) (x : Ext) rows :
  let r1 := codeAgentFunction svc fuel event (mkWorld s1 x rows) in
  let r2 := codeAgentFunction svc fuel event (mkWorld s2 x rows) in
  r1.1 = r2.1 ∧ ext r1.2 = ext r2.2 ∧ db r1.2 = db r2.2 ∧
  (∀ rv, r1.1 = Returned rv → r1.2 = r2.2).
Proof.
  intros r1 r2. subst r1 r2. unfold codeAgentFunction, step_run.
  rewrite !bind_call_eq. simpl.
  destruct (sandbox_create svc "codeassist-nextjs-test-2" x) as [[sid|e] x1].
  - rewrite !bind_previous_messages_eq. simpl.
    unfold bind at 1. unfold put_state at 1. simpl.
    unfold bind at 11. unfold put_state at 2. simpl.
    by split_and!.
  - by split_and!.
Qed.

End FurtherWorkflowProperties.

Section HelloWorldProperties.
Context {Ext Output : Type} (svc : Services Ext).
Variable create : string → Ext → settled string * Ext.
Variable agent : string → Ext → settled Output * Ext.

(** X14: [hello-world] changes neither agent state nor message table.
    When it returns, the output is what the agent resolved to on the
    prompt "Write the following snippet: " followed by the event's value,
    and the URL is "https:", one backslash and the sandbox host, so it
    does not start with "https://". *)
Theorem helloWorld_result event (w : World Ext) r w' :
  helloWorld svc create agent event w = (r, w') →
  state w' = state w ∧ db w' = db w ∧
  ∀ res, r = Returned res →
    hw_sandboxUrl res
    = "https:" ++ String Js.backslash (getHost svc 3000 (ext w')) ∧
    Js.startsWith (hw_sandboxUrl res) "https://" = false ∧
    ∃ x x',
      agent ("Write the following snippet: " ++ ev_value event) x
      = (Resolved (hw_output res), x').
Proof.
  intros Hrun. split_and!.
  - assert (keeps same_state_and_table (helloWorld svc create agent event))
      as Hkeeps; [|specialize (Hkeeps w); rewrite Hrun in Hkeeps;
                    apply Hkeeps].
    unfold helloWorld, step_run, get_sandbox_url, step_run.
    repeat (intros;
            first [ apply (keeps_bind _ same_state_and_table_trans)
                  | apply (keeps_call _ same_state_and_table_ext)
                  | apply (keeps_get_ext _ same_state_and_table_refl)
                  | apply (keeps_ret _ same_state_and_table_refl) ]).
  - assert (keeps same_db (helloWorld svc create agent event))
      as Hkeeps; [|specialize (Hkeeps w); rewrite Hrun in Hkeeps;
                    apply Hkeeps].
    unfold helloWorld, step_run, get_sandbox_url, step_run. keeps_db_tac.
  - intros res ->. unfold helloWorld, step_run in Hrun.
    apply bind_Returned in Hrun as (sandboxId & w1 & _ & Hrun).
    apply bind_Returned in Hrun as (out & w2 & Hagent & Hrun).
    apply call_Returned in Hagent as (x2 & Hagent & ->).
    apply bind_Returned in Hrun as (url & w3 & Hurl & Hrun).
    apply get_sandbox_url_Returned in Hurl as (-> & _ & _).
    injection Hrun as <- <-. simpl. split_and!; [done|done|].
    by exists (ext w1), x2.
Qed.

End HelloWorldProperties.

(* ================================================================== *)
(** * The further properties on scripted runs                          *)
(* ================================================================== *)

(** Witness of X1: two files read back in the order asked for. *)
Lemma readFiles_returns_requested_paths_witness :
  ∃ res w',
    readFiles_handler Scripted.svc_idle "sbx" ["b.ts"; "a.ts"]
      (Some InngestStep) Scripted2.world_fs = (Returned (Some res), w') ∧
    path <$> res = ["b.ts"; "a.ts"].
Proof.
  destruct (readFiles_handler Scripted.svc_idle "sbx" ["b.ts"; "a.ts"]
              (Some InngestStep) Scripted2.world_fs) as [r w'] eqn:Hrun.
  assert (∃ res, r = Returned (Some res)) as [res ->].
  { vm_compute in Hrun. injection Hrun as <- _. by eexists. }
  exists res, w'. split; [reflexivity|].
  destruct (readFiles_returns_requested_paths _ _ _ _ _ _ _ Hrun)
    as (Hpaths & _).
  exact (Hpaths res eq_refl).
Defined.

(** Witness of X2: a failing terminal command on a state that holds a
    file. *)
Lemma read_only_tools_keep_state_witness :
  (∀ entries, CallTerminal "npm test" ≠ CallCreateOrUpdateFiles entries) ∧
  state
    (invoke_tool Scripted.svc_broken_shell "sbx" (Some InngestStep)
       (CallTerminal "npm test") Scripted.world_keep).2
  = state Scripted.world_keep.
Proof.
  assert (∀ entries,
            CallTerminal "npm test" ≠ CallCreateOrUpdateFiles entries) as Hro
    by (intros entries; discriminate).
  split; [exact Hro|].
  exact (proj1 (read_only_tools_keep_state Scripted.svc_broken_shell "sbx"
                  (Some InngestStep) (CallTerminal "npm test")
                  Scripted.world_keep Hro)).
Defined.

(** Witness of X3: the sandbox that cannot be reached. *)
Lemma file_tools_propagate_unreachable_witness :
  getSandbox Scripted2.svc_unreachable "sbx" (ext Scripted.world_keep)
  = (Rejected (Exn "NotFoundError: sandbox"), ext Scripted.world_keep) ∧
  createOrUpdateFiles_handler Scripted2.svc_unreachable "sbx"
    Scripted.entries_twice (Some InngestStep) Scripted.world_keep
  = (Thrown (Exn "NotFoundError: sandbox"), Scripted.world_keep) ∧
  readFiles_handler Scripted2.svc_unreachable "sbx" ["a.ts"]
    (Some InngestStep) Scripted.world_keep
  = (Thrown (Exn "NotFoundError: sandbox"), Scripted.world_keep).
Proof.
  assert (getSandbox Scripted2.svc_unreachable "sbx" (ext Scripted.world_keep)
          = (Rejected (Exn "NotFoundError: sandbox"),
             ext Scripted.world_keep)) as Hg by reflexivity.
  split; [exact Hg|].
  destruct (file_tools_propagate_unreachable Scripted2.svc_unreachable "sbx"
              Scripted.entries_twice ["a.ts"] "ls" Scripted.world_keep _ _ Hg)
    as (Hwrite & Hread & _).
  split; [exact Hwrite|exact Hread].
Defined.

(** Witness of X4: the list that names [a.ts] twice, written twice. *)
Lemma createOrUpdateFiles_twice_witness :
  let w1 :=
    (createOrUpdateFiles_handler Scripted.svc_idle "sbx"
       Scripted.entries_twice (Some InngestStep) Scripted.world_keep).2 in
  let w2 :=
    (createOrUpdateFiles_handler Scripted.svc_idle "sbx"
       Scripted.entries_twice (Some InngestStep) w1).2 in
  createOrUpdateFiles_handler Scripted.svc_idle "sbx" Scripted.entries_twice
    (Some InngestStep) Scripted.world_keep = (Returned tt, w1) ∧
  createOrUpdateFiles_handler Scripted.svc_idle "sbx" Scripted.entries_twice
    (Some InngestStep) w1 = (Returned tt, w2) ∧
  files (data (state w2)) = files (data (state w1)).
Proof.
  intros w1 w2.
  assert (createOrUpdateFiles_handler Scripted.svc_idle "sbx"
            Scripted.entries_twice (Some InngestStep) Scripted.world_keep
          = (Returned tt, w1)) as H1 by (vm_compute; reflexivity).
  assert (createOrUpdateFiles_handler Scripted.svc_idle "sbx"
            Scripted.entries_twice (Some InngestStep) w1
          = (Returned tt, w2)) as H2 by (vm_compute; reflexivity).
  split; [exact H1|]. split; [exact H2|].
  exact (createOrUpdateFiles_twice _ _ _ _ _ _ H1 H2).
Defined.

(** Witness of X5: the run that closes with a summary. *)
Lemma result_needs_completion_tag_witness :
  codeAgentFunction Scripted.svc_done 15 Scripted.event0 Scripted.world0
  = (Returned Scripted.rv_done, Scripted.after_done) ∧
  ∃ pre post,
    rv_summary Scripted.rv_done = pre ++ "<task_summary>" ++ post.
Proof.
  assert (codeAgentFunction Scripted.svc_done 15 Scripted.event0
            Scripted.world0
          = (Returned Scripted.rv_done, Scripted.after_done)) as Hrun
    by (vm_compute; reflexivity).
  split; [exact Hrun|].
  destruct (result_needs_completion_tag _ _ _ _ _ _ Hrun)
    as [[Hempty|Htag] _]; [|exact Htag].
  vm_compute in Hempty. discriminate.
Defined.

(** Witness of X8: a run that throws when it asks for the URL, on a table
    with three rows. *)
Lemma failed_run_stores_nothing_witness :
  (codeAgentFunction Scripted2.svc_unreachable 15 Scripted.event0
     Scripted2.world_history).1
  = Thrown (Exn "NotFoundError: sandbox") ∧
  db (codeAgentFunction Scripted2.svc_unreachable 15 Scripted.event0
        Scripted2.world_history).2
  = db Scripted2.world_history.
Proof.
  assert ((codeAgentFunction Scripted2.svc_unreachable 15 Scripted.event0
             Scripted2.world_history).1
          = Thrown (Exn "NotFoundError: sandbox")) as Hr
    by (vm_compute; reflexivity).
  split; [exact Hr|].
  apply (failed_run_stores_nothing Scripted2.svc_unreachable 15
           Scripted.event0 Scripted2.world_history
           (codeAgentFunction Scripted2.svc_unreachable 15 Scripted.event0
              Scripted2.world_history).1).
  - apply surjective_pairing.
  - intros rv Hrv. rewrite Hr in Hrv. discriminate.
Defined.

(** Witness of X9: the same sandbox, for every run. *)
Lemma unreachable_sandbox_never_returns_witness :
  (∀ id x, ∃ e x',
     getSandbox Scripted2.svc_unreachable id x = (Rejected e, x')) ∧
  (∀ rv,
     (codeAgentFunction Scripted2.svc_unreachable 15 Scripted.event0
        Scripted2.world_history).1 ≠ Returned rv) ∧
  db (codeAgentFunction Scripted2.svc_unreachable 15 Scripted.event0
        Scripted2.world_history).2
  = db Scripted2.world_history.
Proof.
  assert (∀ id x, ∃ e x',
            getSandbox Scripted2.svc_unreachable id x = (Rejected e, x'))
    as Hdown by (intros id x; eexists _, _; reflexivity).
  split; [exact Hdown|].
  exact (unreachable_sandbox_never_returns Scripted2.svc_unreachable 15
           Scripted.event0 Scripted2.world_history Hdown).
Defined.

(** Witness of X10: the run that closes on its first turn. *)
Lemma network_run_takes_a_turn_witness :
  summary (data (state Scripted.world0)) = "" ∧
  network_run Scripted.svc_done 15 "sbx" "create a hello world page"
    (Some InngestStep) 15 Scripted.world0
  = (Returned 1%nat, Scripted.world_done) ∧
  (1 ≤ 1 ≤ 15)%nat.
Proof.
  assert (network_run Scripted.svc_done 15 "sbx" "create a hello world page"
            (Some InngestStep) 15 Scripted.world0
          = (Returned 1%nat, Scripted.world_done)) as Hrun
    by (vm_compute; reflexivity).
  split; [reflexivity|]. split; [exact Hrun|].
  apply (network_run_takes_a_turn Scripted.svc_done 15 15 "sbx"
           "create a hello world page" (Some InngestStep) Scripted.world0
           1 Scripted.world_done); [reflexivity|lia|lia|exact Hrun].
Defined.

(** Witness of X11: a table with two messages of the project. *)
Lemma previous_messages_complete_witness :
  (length
     (filter (λ r, projectId r = ev_projectId Scripted.event0)
        (db Scripted2.world_history)) ≤ 10)%nat ∧
  ∃ msgs,
    get_previous_messages Scripted.event0 Scripted2.world_history
    = (Returned msgs, Scripted2.world_history) ∧
    msgs ≡ₚ
      format_message <$>
        filter (λ r, projectId r = ev_projectId Scripted.event0)
          (db Scripted2.world_history).
Proof.
  assert (length
            (filter (λ r, projectId r = ev_projectId Scripted.event0)
               (db Scripted2.world_history)) ≤ 10)%nat as Hlen
    by (vm_compute; lia).
  split; [exact Hlen|].
  exact (previous_messages_complete Scripted.event0 Scripted2.world_history
           Hlen).
Defined.

(** Witness of X13: a run on a table whose rows are older than the run. *)
Lemma saved_message_is_latest_context_witness :
  codeAgentFunction Scripted.svc_done 15 Scripted.event0
    Scripted2.world_history
  = (Returned Scripted2.rv_history, Scripted2.after_history) ∧
  ∃ earlier row,
    last (db Scripted2.after_history) = Some row ∧
    get_previous_messages Scripted.event0 Scripted2.after_history
    = (Returned (earlier ++ [mkMessage "text" assistant (content row)])%list,
       Scripted2.after_history) ∧
    (length earlier ≤ 9)%nat.
Proof.
  assert (codeAgentFunction Scripted.svc_done 15 Scripted.event0
            Scripted2.world_history
          = (Returned Scripted2.rv_history, Scripted2.after_history)) as Hrun
    by (vm_compute; reflexivity).
  split; [exact Hrun|].
  destruct (saved_message_is_latest_context _ _ _ _ _ _ Hrun)
    as (earlier & row & Hlast & Hget & Hlen & _).
  - intros r Hr Hp. unfold Scripted2.world_history in Hr. simpl in Hr.
    rewrite !elem_of_cons in Hr.
    destruct Hr as [->|[->|[->|Hr]]];
      [vm_compute; reflexivity|discriminate Hp|vm_compute; reflexivity
      |destruct (proj1 (elem_of_nil r) Hr)].
  - exists earlier, row. split_and!; [exact Hlast|exact Hget|exact Hlen].
Defined.

(** Witness of X14: [hello-world] on the scripted sandbox. *)
Lemma helloWorld_result_witness :
  ∃ res w',
    helloWorld Scripted.svc_done Scripted2.hello_create Scripted2.hello_agent
      Scripted.event0 Scripted.world0 = (Returned res, w') ∧
    hw_sandboxUrl res = "https:" ++ String Js.backslash "3000-sbx.e2b.app" ∧
    Js.startsWith (hw_sandboxUrl res) "https://" = false.
Proof.
  destruct (helloWorld Scripted.svc_done Scripted2.hello_create
              Scripted2.hello_agent Scripted.event0 Scripted.world0)
    as [r w'] eqn:Hrun.
  assert (∃ res, r = Returned res) as [res ->].
  { vm_compute in Hrun. injection Hrun as <- _. by eexists. }
  exists res, w'. split; [reflexivity|].
  destruct (helloWorld_result _ _ _ _ _ _ _ Hrun) as (_ & _ & Hres).
  destruct (Hres res eq_refl) as (Hurl & Hnot & _).
  split; [exact Hurl|exact Hnot].
Defined.

(** The run that closes with a summary, started from a world with
    leftovers and from a clean one. *)
Lemma run_ignores_previous_state_witness :
  codeAgentFunction Scripted.svc_done 15 Scripted.event0 Scripted2.world_stale
  = codeAgentFunction Scripted.svc_done 15 Scripted.event0 Scripted.world0.
Proof.
  destruct (run_ignores_previous_state Scripted.svc_done 15 Scripted.event0
              (state Scripted2.world_stale) (state Scripted.world0)
              (Scripted.mkRemote 0 ∅) []) as (Hout & _ & _ & Hworld).
  apply injective_projections; [exact Hout|].
  apply (Hworld Scripted.rv_done). vm_compute. reflexivity.
Defined.

(* ================================================================== *)
(** * The stored row against the returned value                        *)
(* ================================================================== *)

Section LastProperties.
Context {Ext : Type} (svc : Services Ext).

(** X12: the row a run stores is filed under the project of the event
    with role ASSISTANT, and whether it is an ERROR can be read off the
    returned value: it is one exactly when the returned summary is empty
    or the returned files are. *)
Theorem stored_row_matches_return_value fuel event (w : World Ext) rv w' :
  codeAgentFunction svc fuel event w = (Returned rv, w') →
  ∃ row,
    last (db w') = Some row ∧
    projectId row = ev_projectId event ∧
    role row = ASSISTANT ∧
    (type row = ERROR ↔ rv_summary rv = "" ∨ rv_files rv = ∅) ∧
    (type row = RESULT ↔ rv_summary rv ≠ "" ∧ rv_files rv ≠ ∅).
Proof.
  intros Hrun.
  apply codeAgentFunction_Returned in Hrun
    as (titleOut & respOut & -> & Hdb).
  eexists. split; [by rewrite Hdb, last_snoc|]. simpl.
  rewrite <- isError_spec, <- isError_false.
  by destruct (isError (data (state w'))).
Qed.

End LastProperties.

(** Witness of X12: the run that writes a file and closes. *)
Lemma stored_row_matches_return_value_witness :
  codeAgentFunction Scripted.svc_done 15 Scripted.event0 Scripted.world0
  = (Returned Scripted.rv_done, Scripted.after_done) ∧
  ∃ row,
    last (db Scripted.after_done) = Some row ∧
    projectId row = "p1" ∧ role row = ASSISTANT ∧ type row = RESULT.
Proof.
  assert (codeAgentFunction Scripted.svc_done 15 Scripted.event0
            Scripted.world0
          = (Returned Scripted.rv_done, Scripted.after_done)) as Hrun
    by (vm_compute; reflexivity).
  split; [exact Hrun|].
  destruct (stored_row_matches_return_value _ _ _ _ _ _ Hrun)
    as (row & Hlast & Hpid & Hrole & _ & Hres).
  exists row. split_and!; [exact Hlast|exact Hpid|exact Hrole|].
  apply Hres. split; vm_compute; discriminate.
Defined.
